(** * InstaExpand: session state machine, generation adapter and codec

  A shallow embedding of the client logic of InstaExpand
  ([App.tsx], [services/geminiService.ts], [types.ts], and the gating
  conditions of the presentation components [Button.tsx],
  [ImageUploader.tsx], [RatioSelector.tsx]).

  React state is a record; every [setX] call is a record update; an
  [async] handler is split at its [await] into the part that runs at the
  user's action and the part that runs when the awaited promise settles.
  The browser facilities the code calls ([FileReader.readAsDataURL],
  [String.prototype.split], [String.prototype.includes], truthiness) are
  written out in the modules [Js] and [Base64]. *)

From Stdlib Require Import List String Ascii Bool NArith ZArith Arith Lia.
From Stdlib Require Import Strings.Byte.
From Stdlib Require Import DecimalString.
Import ListNotations.
Open Scope string_scope.

(* ================================================================== *)
(** * Part I: definitions                                              *)
(* ================================================================== *)

(** ** JavaScript values and string primitives used by the sources *)
Module Js.

(** A value caught by [catch (err: any)]; only [err.message] is read.
    [None] is a thrown value without a [message] property. *)
Record Thrown := mkThrown { message : option string }.

Definition Error (msg : string) : Thrown := mkThrown (Some msg).

(** The outcome of an awaited promise. *)
Inductive Settled (A : Type) : Type :=
| Resolved (a : A)
| Rejected (e : Thrown).
Arguments Resolved {A} a.
Arguments Rejected {A} e.

Definition is_empty (s : string) : bool :=
  match s with EmptyString => true | String _ _ => false end.

(** Truthiness of a [string | null | undefined]: [null], [undefined] and
    the empty string are falsy. *)
Definition truthy (v : option string) : bool :=
  match v with
  | None => false
  | Some s => negb (is_empty s)
  end.

(** [hay.includes(needle)] *)
Fixpoint includes (needle hay : string) : bool :=
  String.prefix needle hay ||
  match hay with
  | EmptyString => false
  | String _ rest => includes needle rest
  end.

(** [s.split(sep)] for a one-character separator. *)
Fixpoint split (sep : ascii) (s : string) : list string :=
  match s with
  | EmptyString => [EmptyString]
  | String c rest =>
      if Ascii.eqb c sep then EmptyString :: split sep rest
      else match split sep rest with
           | seg :: segs => String c seg :: segs
           | [] => [String c EmptyString]
           end
  end.

(** [arr[i]]: [None] is [undefined]. *)
Definition at_index {A} (arr : list A) (i : nat) : option A := nth_error arr i.

(** Interpolation [`${v}`] of a possibly undefined string. *)
Definition interpolate (v : option string) : string :=
  match v with Some s => s | None => "undefined" end.

Definition nl : string := String (ascii_of_nat 10) EmptyString.

End Js.

(** ** Base64 (RFC 4648, with padding), as produced inside data URLs *)
Module Base64.

Definition alphabet : string :=
  "ABCDEFGHIJKLMNOPQRSTUVWXYZabcdefghijklmnopqrstuvwxyz0123456789+/".

Definition pad : ascii := "="%char.

(** The character of a six-bit value. *)
Definition digit (v : N) : ascii :=
  match String.get (N.to_nat v) alphabet with
  | Some c => c
  | None => "A"%char
  end.

Fixpoint position (c : ascii) (s : string) (i : N) : option N :=
  match s with
  | EmptyString => None
  | String d rest => if Ascii.eqb c d then Some i else position c rest (N.succ i)
  end.

(** The six-bit value of a character, when it is in the alphabet. *)
Definition value (c : ascii) : option N := position c alphabet 0.

Definition quad (c1 c2 c3 c4 : ascii) (rest : string) : string :=
  String c1 (String c2 (String c3 (String c4 rest))).

Fixpoint encode (bs : list byte) : string :=
  match bs with
  | [] => EmptyString
  | [a] =>
      let x := Byte.to_N a in
      quad (digit (x / 4)) (digit (x mod 4 * 16)) pad pad EmptyString
  | [a; b] =>
      let x := Byte.to_N a in
      let y := Byte.to_N b in
      quad (digit (x / 4)) (digit (x mod 4 * 16 + y / 16))
           (digit (y mod 16 * 4)) pad EmptyString
  | a :: b :: c :: rest =>
      let x := Byte.to_N a in
      let y := Byte.to_N b in
      let z := Byte.to_N c in
      quad (digit (x / 4)) (digit (x mod 4 * 16 + y / 16))
           (digit (y mod 16 * 4 + z / 64)) (digit (z mod 64)) (encode rest)
  end.

Definition bind {A B} (o : option A) (k : A -> option B) : option B :=
  match o with Some a => k a | None => None end.

Fixpoint decode (s : string) : option (list byte) :=
  match s with
  | EmptyString => Some []
  | String c1 (String c2 (String c3 (String c4 rest))) =>
      bind (value c1) (fun v1 =>
      bind (value c2) (fun v2 =>
      bind (Byte.of_N (v1 * 4 + v2 / 16)) (fun b1 =>
      if Ascii.eqb c3 pad then
        if Ascii.eqb c4 pad && Js.is_empty rest then Some [b1] else None
      else
        bind (value c3) (fun v3 =>
        bind (Byte.of_N (v2 mod 16 * 16 + v3 / 4)) (fun b2 =>
        if Ascii.eqb c4 pad then
          if Js.is_empty rest then Some [b1; b2] else None
        else
          bind (value c4) (fun v4 =>
          bind (Byte.of_N (v3 mod 4 * 64 + v4)) (fun b3 =>
          bind (decode rest) (fun tl => Some (b1 :: b2 :: b3 :: tl)))))))))
  | _ => None
  end.

End Base64.

(** ** The browser's file objects *)
Module Browser.

(** A [File] picked by the user: the object URL [URL.createObjectURL]
    gives it (the call does not fail on a [File]), its media type, and its
    bytes ([None] when the bytes cannot be read, so that the reader fires
    [onerror]). *)
Record File := mkFile {
  file_url : string;
  file_type : string;
  file_bytes : option (list byte)
}.

(** The media type a data URL declares: the blob's type, or
    [application/octet-stream] when the blob has none. *)
Definition declaredType (mediaType : string) : string :=
  if Js.is_empty mediaType then "application/octet-stream" else mediaType.

(** [FileReader.readAsDataURL], as the File API defines it: the result on
    a successful read. *)
Definition readAsDataURL (mediaType : string) (bs : list byte) : string :=
  "data:" ++ declaredType mediaType ++ ";base64," ++ Base64.encode bs.

(** The [ProgressEvent] a failed read rejects with; it has no message. *)
Definition readError : Js.Thrown := Js.mkThrown None.

End Browser.


(** ** [types.ts] *)
Module Types.

Inductive AspectRatio := SQUARE | PORTRAIT | STORY.

(** The string value of each enum member. *)
Definition ratioValue (r : AspectRatio) : string :=
  match r with
  | SQUARE => "1:1"
  | PORTRAIT => "3:4"
  | STORY => "9:16"
  end.

Inductive GenerationStatus := idle | generating | success | error.

Definition status_eqb (a b : GenerationStatus) : bool :=
  match a, b with
  | idle, idle | generating, generating | success, success | error, error => true
  | _, _ => false
  end.

End Types.

(** ** [services/geminiService.ts] *)
Module GeminiService.
Import Js Types.

(** [blobToBase64]: the promise resolves, at [onloadend], with the second
    segment of the data URL split at commas, and rejects at [onerror]. *)
Definition blobToBase64 (blob : Browser.File) : Settled (option string) :=
  match Browser.file_bytes blob with
  | Some bs =>
      let base64String := Browser.readAsDataURL (Browser.file_type blob) bs in
      let base64Data := at_index (split ","%char base64String) 1 in
      Resolved base64Data
  | None => Rejected Browser.readError
  end.

(** The argument of [ai.models.generateContent]. *)
Record Request := mkRequest {
  req_model : string;
  req_text : string;
  req_data : string;
  req_mimeType : string;
  req_aspectRatio : AspectRatio;
  req_imageSize : string
}.

Definition defaultPromptDescription : string := "Expand this image naturally.".

Definition indent : string := "            ".

Definition promptText (targetRatio : AspectRatio) (promptDescription : string) : string :=
  "Perform an outpainting task to resize the image to aspect ratio "
    ++ ratioValue targetRatio ++ ". " ++ nl
    ++ indent ++ promptDescription ++ " " ++ nl
    ++ indent ++ "Critical instructions:" ++ nl
    ++ indent ++ "1. Keep the original central image absolutely unchanged and intact." ++ nl
    ++ indent ++ "2. Only generate new content in the added empty space (borders)." ++ nl
    ++ indent ++ "3. The new background must seamlessly blend with the original lighting, textures, and style." ++ nl
    ++ indent ++ "4. High photorealism.".

Definition buildRequest (originalImageBase64 : string) (targetRatio : AspectRatio)
    (promptDescription : string) : Request :=
  {| req_model := "gemini-3-pro-image-preview";
     req_text := promptText targetRatio promptDescription;
     req_data := originalImageBase64;
     req_mimeType := "image/png";
     req_aspectRatio := targetRatio;
     req_imageSize := "1K" |}.

(** The response of the SDK; every level is optional, as in its types. *)
Record InlineData := mkInlineData {
  data : option string;
  mimeType : option string
}.

Record Part := mkPart {
  text : option string;
  inlineData : option InlineData
}.

Record Content := mkContent { parts : option (list Part) }.

Record Candidate := mkCandidate { content : option Content }.

Record Response := mkResponse { candidates : option (list Candidate) }.


(** [response.candidates?.[0]?.content?.parts || []] *)
Definition responseParts (response : Response) : list Part :=
  match candidates response with
  | Some cs =>
      match at_index cs 0 with
      | Some c =>
          match content c with
          | Some ct => match parts ct with Some ps => ps | None => [] end
          | None => []
          end
      | None => []
      end
  | None => []
  end.

Definition noImageMsg : string := "No image data found in response".

(** The loop over the parts, followed by the [throw]. *)
Fixpoint extractImage (ps : list Part) : Settled string :=
  match ps with
  | [] => Rejected (Error noImageMsg)
  | part :: rest =>
      match inlineData part with
      | Some inline =>
          let base64EncodeString := data inline in
          Resolved ("data:image/png;base64," ++ interpolate base64EncodeString)
      | None => extractImage rest
      end
  end.

(** [generateExpandedImage] after [await ai.models.generateContent(...)]
    has settled with [remote]: the [catch] logs and rethrows. *)
Definition generateExpandedImage_settle (remote : Settled Response) : Settled string :=
  match remote with
  | Resolved response => extractImage (responseParts response)
  | Rejected e => Rejected e
  end.

End GeminiService.

(** ** [App.tsx]: the session state and its handlers *)
Module App.
Import Js Types GeminiService.

Record State := mkState {
  apiKeySet : bool;
  originalImage : option string;
  originalImageBase64 : option string;
  generatedImage : option string;
  selectedRatio : AspectRatio;
  status : GenerationStatus;
  errorMsg : option string
}.

(** The [useState] initial values. *)
Definition initialState : State :=
  {| apiKeySet := false;
     originalImage := None;
     originalImageBase64 := None;
     generatedImage := None;
     selectedRatio := PORTRAIT;
     status := idle;
     errorMsg := None |}.

Definition setApiKeySet (v : bool) (s : State) : State :=
  mkState v (originalImage s) (originalImageBase64 s) (generatedImage s)
          (selectedRatio s) (status s) (errorMsg s).

Definition setOriginalImage (v : option string) (s : State) : State :=
  mkState (apiKeySet s) v (originalImageBase64 s) (generatedImage s)
          (selectedRatio s) (status s) (errorMsg s).

Definition setOriginalImageBase64 (v : option string) (s : State) : State :=
  mkState (apiKeySet s) (originalImage s) v (generatedImage s)
          (selectedRatio s) (status s) (errorMsg s).

Definition setGeneratedImage (v : option string) (s : State) : State :=
  mkState (apiKeySet s) (originalImage s) (originalImageBase64 s) v
          (selectedRatio s) (status s) (errorMsg s).

Definition setSelectedRatio (v : AspectRatio) (s : State) : State :=
  mkState (apiKeySet s) (originalImage s) (originalImageBase64 s) (generatedImage s)
          v (status s) (errorMsg s).

Definition setStatus (v : GenerationStatus) (s : State) : State :=
  mkState (apiKeySet s) (originalImage s) (originalImageBase64 s) (generatedImage s)
          (selectedRatio s) v (errorMsg s).

Definition setErrorMsg (v : option string) (s : State) : State :=
  mkState (apiKeySet s) (originalImage s) (originalImageBase64 s) (generatedImage s)
          (selectedRatio s) (status s) v.

(** Statements run top to bottom: [s |> f |> g] is [f] then [g]. *)
Notation "s |> f" := (f s) (at level 45, left associativity, only parsing).

(** *** [checkApiKey], the mount effect.  [probe] is [None] when
    [window.aistudio] is missing, else how [hasSelectedApiKey()] settles. *)
Definition checkApiKey (probe : option (Settled bool)) (s : State) : State :=
  match probe with
  | Some (Resolved hasKey) => s |> setApiKeySet hasKey
  | Some (Rejected _) => s
  | None => s
  end.

Definition selectKeyFailedMsg : string := "Failed to select API key. Please try again.".

(** *** [handleSelectKey]; [flow] is how [openSelectKey()] settles. *)
Definition handleSelectKey (flow : option (Settled unit)) (s : State) : State :=
  match flow with
  | Some (Resolved _) => s |> setApiKeySet true
  | Some (Rejected _) => s |> setErrorMsg (Some selectKeyFailedMsg)
  | None => s
  end.

Definition uploadFailedMsg : string := "Failed to process image. Please try another one.".

(** *** [handleImageUpload], up to [await blobToBase64(file)] *)
Definition handleImageUpload_begin (file : Browser.File) (s : State) : State :=
  let url := Browser.file_url file in
  s |> setOriginalImage (Some url)
    |> setGeneratedImage None
    |> setErrorMsg None.

(** *** [handleImageUpload], once the read has settled *)
Definition handleImageUpload_settle (read : Settled (option string)) (s : State) : State :=
  match read with
  | Resolved b64 => s |> setOriginalImageBase64 b64
  | Rejected _ => s |> setErrorMsg (Some uploadFailedMsg)
  end.

(** The whole handler, when nothing else runs during the read. *)
Definition handleImageUpload (file : Browser.File) (s : State) : State :=
  s |> handleImageUpload_begin file
    |> handleImageUpload_settle (blobToBase64 file).

(** *** [handleClear] *)
Definition handleClear (s : State) : State :=
  s |> setOriginalImage None
    |> setOriginalImageBase64 None
    |> setGeneratedImage None
    |> setStatus idle.

(** The guard [!originalImageBase64 || !apiKeySet] of [handleGenerate]. *)
Definition generateRefused (s : State) : bool :=
  negb (truthy (originalImageBase64 s)) || negb (apiKeySet s).

(** *** [handleGenerate], up to [await generateExpandedImage(...)]:
    the new state and the request sent to the adapter, if any.  Past the
    guard the encoded image is a non-empty string, which [interpolate]
    reads. *)
Definition handleGenerate_begin (s : State) : State * option Request :=
  if generateRefused s then (s, None)
  else
    (s |> setStatus generating |> setErrorMsg None,
     Some (buildRequest (interpolate (originalImageBase64 s)) (selectedRatio s)
                        defaultPromptDescription)).

Definition fallbackErrorMsg : string := "Something went wrong. Please try again.".
Definition credentialMarker : string := "Requested entity was not found".
Definition keyIssueMsg : string := "API Key issue. Please select your key again.".

(** [err.message || "Something went wrong. Please try again."] *)
Definition messageOrFallback (err : Thrown) : string :=
  if truthy (message err) then interpolate (message err) else fallbackErrorMsg.

(** [err.message && err.message.includes("Requested entity was not found")] *)
Definition isCredentialFailure (err : Thrown) : bool :=
  match message err with
  | Some m => negb (is_empty m) && includes credentialMarker m
  | None => false
  end.

(** The [catch] block of [handleGenerate]. *)
Definition handleGenerate_catch (err : Thrown) (s : State) : State :=
  let s1 := s |> setStatus error |> setErrorMsg (Some (messageOrFallback err)) in
  if isCredentialFailure err
  then s1 |> setApiKeySet false |> setErrorMsg (Some keyIssueMsg)
  else s1.

(** *** [handleGenerate], once the adapter call has settled *)
Definition handleGenerate_settle (outcome : Settled string) (s : State) : State :=
  match outcome with
  | Resolved result => s |> setGeneratedImage (Some result) |> setStatus success
  | Rejected err => s |> handleGenerate_catch err
  end.

(** The inline [onClick] of the "Try Different Ratio" button. *)
Definition discardResult (s : State) : State := s |> setGeneratedImage None.

End App.

(** ** What the rendered page lets the user do

    The conditions under which [App.tsx] renders each control, and the
    [disabled] attribute [Button.tsx], [ImageUploader.tsx] and
    [RatioSelector.tsx] put on it.  A control that is not rendered or is
    disabled runs no handler. *)
Module Ui.
Import Js Types GeminiService App.

(** [status === 'generating'] *)
Definition isGenerating (s : State) : bool := status_eqb (status s) generating.

(** [Button.tsx]: [disabled={disabled || isLoading}] *)
Definition buttonDisabled (disabled isLoading : bool) : bool := disabled || isLoading.

(** [if (!apiKeySet) return] the connect screen, whose only control is
    the "Connect API Key" button. *)
Definition connectScreen (s : State) : bool := negb (apiKeySet s).

(** The file input of [ImageUploader]: rendered when [currentImage] is
    falsy, [disabled] while generating. *)
Definition fileInputEnabled (s : State) : bool :=
  apiKeySet s && negb (truthy (originalImage s)) && negb (isGenerating s).

(** The "Reset" text button: rendered when [originalImage] is truthy and
    never disabled. *)
Definition resetEnabled (s : State) : bool :=
  apiKeySet s && truthy (originalImage s).

(** The ratio buttons: rendered when [originalImage] is truthy,
    [disabled] while generating. *)
Definition ratioButtonsEnabled (s : State) : bool :=
  apiKeySet s && truthy (originalImage s) && negb (isGenerating s).

(** The generate button: rendered when [originalImage && !generatedImage],
    with [isLoading={status === 'generating'}] and no [disabled] prop. *)
Definition generateButtonEnabled (s : State) : bool :=
  apiKeySet s && truthy (originalImage s) && negb (truthy (generatedImage s))
  && negb (buttonDisabled false (isGenerating s)).

(** The "Try Different Ratio" button: rendered when [generatedImage]. *)
Definition discardEnabled (s : State) : bool :=
  apiKeySet s && truthy (generatedImage s).

(** A click on the generate button. *)
Definition clickGenerate (s : State) : State * option Request :=
  if generateButtonEnabled s then handleGenerate_begin s else (s, None).

End Ui.

(** ** The session as a transition system

    The session state together with the promises that have not settled
    yet: the pending file reads (each with the way it will settle, which
    the file determines) and the adapter calls in flight.  [sent] records
    every outbound call made so far. *)
Module Session.
Import Js Types GeminiService App.

Record World := mkWorld {
  st : State;
  reads : list (Settled (option string));
  inflight : list Request;
  sent : list Request
}.

Inductive Action :=
| PickFile (file : Browser.File)            (* the file input fires onChange *)
| ReadSettles (i : nat)                     (* the i-th pending read settles *)
| ChooseRatio (r : AspectRatio)             (* a ratio button is clicked *)
| ClickGenerate                             (* the generate button is clicked *)
| RemoteSettles (i : nat) (remote : Settled Response)
                                            (* the i-th call in flight settles *)
| ClickReset                                (* the Reset button is clicked *)
| ClickDiscard                              (* Try Different Ratio is clicked *)
| ConnectKey (flow : option (Settled unit)). (* Connect API Key is clicked *)

Definition remove_at {A} (i : nat) (l : list A) : list A :=
  firstn i l ++ skipn (S i) l.

Definition option_list {A} (o : option A) : list A :=
  match o with Some a => [a] | None => [] end.

Definition withState (s : State) (w : World) : World :=
  mkWorld s (reads w) (inflight w) (sent w).

Definition exec (a : Action) (w : World) : World :=
  match a with
  | PickFile file =>
      if Ui.fileInputEnabled (st w)
      then mkWorld (handleImageUpload_begin file (st w))
                   (reads w ++ [blobToBase64 file]) (inflight w) (sent w)
      else w
  | ReadSettles i =>
      match nth_error (reads w) i with
      | Some read =>
          mkWorld (handleImageUpload_settle read (st w))
                  (remove_at i (reads w)) (inflight w) (sent w)
      | None => w
      end
  | ChooseRatio r =>
      if Ui.ratioButtonsEnabled (st w)
      then withState (setSelectedRatio r (st w)) w
      else w
  | ClickGenerate =>
      let (s', req) := Ui.clickGenerate (st w) in
      mkWorld s' (reads w) (inflight w ++ option_list req) (sent w ++ option_list req)
  | RemoteSettles i remote =>
      match nth_error (inflight w) i with
      | Some _ =>
          mkWorld (handleGenerate_settle (generateExpandedImage_settle remote) (st w))
                  (reads w) (remove_at i (inflight w)) (sent w)
      | None => w
      end
  | ClickReset =>
      if Ui.resetEnabled (st w) then withState (handleClear (st w)) w else w
  | ClickDiscard =>
      if Ui.discardEnabled (st w) then withState (discardResult (st w)) w else w
  | ConnectKey flow =>
      if Ui.connectScreen (st w) then withState (handleSelectKey flow (st w)) w else w
  end.

Fixpoint run (acts : list Action) (w : World) : World :=
  match acts with
  | [] => w
  | a :: rest => run rest (exec a w)
  end.

(** The session once the mount effect [checkApiKey] has run. *)
Definition initialWorld (probe : option (Settled bool)) : World :=
  mkWorld (checkApiKey probe initialState) [] [] [].

Definition isReset (a : Action) : bool :=
  match a with ClickReset => true | _ => false end.






End Session.

(** ** Concrete files, states and responses used in the examples *)
Module Examples.
Import Js Types GeminiService App Session.

(** A readable file holding the four bytes [FF D8 FF E0], the start of a
    JPEG. *)
Definition photoA : Browser.File :=
  Browser.mkFile "blob:photo-a" "image/jpeg" (Some [xff; xd8; xff; xe0]%byte).

(** A file whose bytes cannot be read. *)
Definition photoB : Browser.File :=
  Browser.mkFile "blob:photo-b" "image/png" None.

(** The mount check found a selected key. *)
Definition keyed : option (Settled bool) := Some (Resolved true).

(** A session with an uploaded, encoded image and a credential. *)
Definition readyState : State :=
  {| apiKeySet := true;
     originalImage := Some "blob:photo-a";
     originalImageBase64 := Some "/9j/4A==";
     generatedImage := None;
     selectedRatio := PORTRAIT;
     status := idle;
     errorMsg := None |}.

Definition generatingState : State := setStatus generating readyState.

Definition generatingWorld : World := mkWorld generatingState [] [] [].

Definition textPart : Part := mkPart (Some "Here is your image.") None.

Definition imagePart (d : string) : Part :=
  mkPart None (Some (mkInlineData (Some d) (Some "image/png"))).

Definition responseOf (ps : list Part) : Response :=
  mkResponse (Some [mkCandidate (Some (mkContent (Some ps)))]).

(** Photo A is picked and reset while its read is pending; the read then
    completes; photo B is picked and its read fails. *)
Definition staleEncodingTrace : list Action :=
  [PickFile photoA; ClickReset; ReadSettles 0; PickFile photoB; ReadSettles 0].

(** Photo A is uploaded, a generation is started and fails for lack of
    quota, and the session is reset. *)
Definition failedThenResetTrace : list Action :=
  [PickFile photoA; ReadSettles 0; ClickGenerate;
   RemoteSettles 0 (Rejected (Error "Quota exceeded")); ClickReset].


(** A generation is started, the session is reset and photo A uploaded
    again while the first call is still in flight, and a second generation
    is started. *)
Definition twoInFlightTrace : list Action :=
  [PickFile photoA; ReadSettles 0; ClickGenerate; ClickReset;
   PickFile photoA; ReadSettles 0; ClickGenerate].

(** Then the first call returns an image and the second one fails. *)
Definition resultThenErrorTrace : list Action :=
  twoInFlightTrace ++
  [RemoteSettles 0 (Resolved (responseOf [imagePart "AAAA"]));
   RemoteSettles 0 (Rejected (Error "Quota exceeded"))].

End Examples.

(** ** [App.tsx]: download and what the page renders *)
Module Render.
Import Js Types GeminiService App.

(** The anchor [handleDownload] creates and clicks. *)
Record Link := mkLink {
  href : string;
  download : string
}.

(** [`${n}`] for a non-negative integer. *)
Definition decimal (n : N) : string := NilEmpty.string_of_uint (N.to_uint n).

(** *** [handleDownload]; [now] is the value of [Date.now()].  [None]: the
    guard [if (generatedImage)] fails and no anchor is created. *)
Definition handleDownload (now : N) (s : State) : option Link :=
  if truthy (generatedImage s)
  then Some {| href := interpolate (generatedImage s);
               download := "insta-expand-" ++ decimal now ++ ".png" |}
  else None.

(** The text of the error paragraph, when it is rendered: on the main
    screen, inside [originalImage && (...)] and [!generatedImage && (...)],
    under [errorMsg && (...)]. *)
Definition errorShown (s : State) : option string :=
  if apiKeySet s && truthy (originalImage s) && negb (truthy (generatedImage s))
     && truthy (errorMsg s)
  then errorMsg s
  else None.

(** The result section, with the Download and Try Different Ratio
    buttons, is rendered under [generatedImage && (...)]. *)
Definition resultShown (s : State) : bool :=
  apiKeySet s && truthy (generatedImage s).

End Render.

(** ** [components/RatioSelector.tsx] *)
Module RatioSelector.
Import Types.

Record RatioOption := mkOption {
  id : AspectRatio;
  label : string;
  subLabel : string;
  desc : string
}.

Definition options : list RatioOption :=
  [ mkOption SQUARE "Square" "1:1" "Post";
    mkOption PORTRAIT "Portrait" "4:5" "Feed";
    mkOption STORY "Story" "9:16" "Reels" ].

(** [===] on enum members. *)
Definition ratio_eqb (a b : AspectRatio) : bool :=
  match a, b with
  | SQUARE, SQUARE | PORTRAIT, PORTRAIT | STORY, STORY => true
  | _, _ => false
  end.

(** [const isSelected = selectedRatio === opt.id] *)
Definition isSelected (selectedRatio : AspectRatio) (opt : RatioOption) : bool :=
  ratio_eqb selectedRatio (id opt).

(** The click on the button of [opt]: [onSelect(opt.id)], with
    [onSelect={setSelectedRatio}]. *)
Definition click (opt : RatioOption) : Session.Action := Session.ChooseRatio (id opt).

End RatioSelector.

(** ** [components/ImageUploader.tsx]: the preview frame *)
Module ImageUploader.
Import Types.

(** [s.replace(c, d)] with one-character strings: the first occurrence
    only. *)
Fixpoint replaceFirst (c d : ascii) (s : string) : string :=
  match s with
  | EmptyString => EmptyString
  | String x rest =>
      if Ascii.eqb x c then String d rest else String x (replaceFirst c d rest)
  end.

(** [const ratioValue = targetRatio.replace(':', '/')] *)
Definition cssRatio (targetRatio : AspectRatio) : string :=
  replaceFirst ":"%char "/"%char (ratioValue targetRatio).

(** [maxWidth: targetRatio === AspectRatio.STORY ? '260px' : '100%'] *)
Definition maxWidth (targetRatio : AspectRatio) : string :=
  match targetRatio with
  | STORY => "260px"
  | _ => "100%"
  end.

(** [handleFileChange]: [event.target.files?.[0]], and the upload only
    [if (file)]. *)
Definition handleFileChange (files : option (list Browser.File)) : option Session.Action :=
  match files with
  | Some fs =>
      match Js.at_index fs 0 with
      | Some file => Some (Session.PickFile file)
      | None => None
      end
  | None => None
  end.

End ImageUploader.

(** ** Predicates on actions, runs and requests *)
Module Runs.
Import Js Types GeminiService App Session.

(** The controls of the main screen. *)
Definition isMainControl (a : Action) : bool :=
  match a with
  | PickFile _ | ChooseRatio _ | ClickGenerate | ClickReset | ClickDiscard => true
  | ReadSettles _ | RemoteSettles _ _ | ConnectKey _ => false
  end.

(** The mount check found a key. *)
Definition probeGrants (probe : option (Settled bool)) : bool :=
  match probe with
  | Some (Resolved hasKey) => hasKey
  | _ => false
  end.

(** The key-selection flow of the host completed. *)
Definition grantsKey (a : Action) : bool :=
  match a with
  | ConnectKey (Some (Resolved _)) => true
  | _ => false
  end.

(** What every request built by [handleGenerate] looks like. *)
Definition wellFormed (req : Request) : Prop :=
  is_empty (req_data req) = false
  /\ req_model req = "gemini-3-pro-image-preview"
  /\ req_mimeType req = "image/png"
  /\ req_imageSize req = "1K"
  /\ req_text req = promptText (req_aspectRatio req) defaultPromptDescription.

(** A PNG data URI. *)
Definition isPngDataUri (s : string) : Prop :=
  exists payload, s = "data:image/png;base64," ++ payload.

(** A run, started in [w], in which Reset is never clicked while the
    status is [generating] (the X button of the preview, bound to the same
    [handleClear], is disabled then; the Reset text button is not). *)
Fixpoint calm (acts : list Action) (w : World) : bool :=
  match acts with
  | [] => true
  | a :: rest => negb (isReset a && Ui.isGenerating (st w)) && calm rest (exec a w)
  end.

(** The error half that also holds after a reset: a message stored while
    the status is [generating] or [success] is one of the two messages
    that [handleImageUpload] and [handleSelectKey] store. *)
Definition errorOnlyOnFailureOrIdle (s : State) : Prop :=
  errorMsg s <> None ->
  status s = error
  \/ status s = idle
  \/ errorMsg s = Some uploadFailedMsg
  \/ errorMsg s = Some selectKeyFailedMsg.

(** The invariant of calm runs. *)
Definition CalmInvariant (w : World) : Prop :=
  List.length (inflight w) <= 1
  /\ (inflight w <> [] ->
      status (st w) = generating /\ generatedImage (st w) = None)
  /\ (generatedImage (st w) <> None ->
      status (st w) = success /\ truthy (generatedImage (st w)) = true)
  /\ errorOnlyOnFailureOrIdle (st w).

End Runs.

(** ** More concrete inputs for the examples *)
Module MoreExamples.
Import Js Types GeminiService App Session.

(** A session showing a result. *)
Definition successState : State :=
  setStatus success
    (setGeneratedImage (Some "data:image/png;base64,AAAA") Examples.readyState).

(** A readable file without bytes. *)
Definition emptyFile : Browser.File :=
  Browser.mkFile "blob:empty" "image/png" (Some []).

(** A response whose first candidate holds text only and whose second
    candidate holds an image. *)
Definition imageInSecondCandidate : Response :=
  mkResponse (Some [ mkCandidate (Some (mkContent (Some [Examples.textPart])));
                     mkCandidate (Some (mkContent (Some [Examples.imagePart "AAAA"]))) ]).

(** A world on the connect screen that still holds an uploaded image. *)
Definition lockedWorld : World :=
  mkWorld (setApiKeySet false Examples.readyState) [] [] [].

Definition readyWorld : World := mkWorld Examples.readyState [] [] [].

(** A world whose page shows a result. *)
Definition resultWorld : World := mkWorld successState [] [] [].

(** Photo A is uploaded and a generation is started. *)
Definition firstGenerationTrace : list Action :=
  [PickFile Examples.photoA; ReadSettles 0; ClickGenerate].


End MoreExamples.

(* ================================================================== *)
(** * Part II: theorems                                                *)
(* ================================================================== *)

(** ** Facts about the JavaScript string primitives *)
Module JsFacts.
Import Js.

Lemma append_assoc (a b c : string) : (a ++ b) ++ c = a ++ (b ++ c).
Proof. induction a as [|x a IH]; simpl; [reflexivity | now rewrite IH]. Qed.

Lemma prefix_empty (s : string) : String.prefix EmptyString s = true.
Proof. destruct s; reflexivity. Qed.

(** Searching for a one-character needle looks at each character in turn. *)
Lemma includes_char_cons (c d : ascii) (rest : string) :
  includes (String c EmptyString) (String d rest)
  = Ascii.eqb c d || includes (String c EmptyString) rest.
Proof.
  simpl. destruct (ascii_dec c d) as [->|ne].
  - now rewrite prefix_empty, Ascii.eqb_refl.
  - apply Ascii.eqb_neq in ne. now rewrite ne.
Qed.

Lemma includes_char_append (c : ascii) (p q : string) :
  includes (String c EmptyString) (p ++ q)
  = includes (String c EmptyString) p || includes (String c EmptyString) q.
Proof.
  induction p as [|d p IH].
  - reflexivity.
  - change (String d p ++ q) with (String d (p ++ q)).
    now rewrite !includes_char_cons, IH, orb_assoc.
Qed.

(** A needle that occurs is no longer than the haystack; in particular a
    haystack containing a non-empty needle is not empty. *)
Lemma includes_nonempty (needle hay : string) :
  is_empty needle = false -> includes needle hay = true -> is_empty hay = false.
Proof.
  intros Hn Hi. destruct hay; [|reflexivity].
  destruct needle; [discriminate Hn | discriminate Hi].
Qed.

Lemma split_without_sep (sep : ascii) (s : string) :
  includes (String sep EmptyString) s = false -> split sep s = [s].
Proof.
  induction s as [|c s IH]; [reflexivity|].
  rewrite includes_char_cons. intros H.
  apply orb_false_iff in H as [Hc Hs].
  simpl. rewrite Ascii.eqb_sym, Hc, (IH Hs). reflexivity.
Qed.

(** Splitting at the first separator: the text before it is the first
    segment. *)
Lemma split_at_first_sep (sep : ascii) (p q : string) :
  includes (String sep EmptyString) p = false ->
  split sep (p ++ String sep q) = p :: split sep q.
Proof.
  induction p as [|c p IH].
  - intros _. simpl. now rewrite Ascii.eqb_refl.
  - rewrite includes_char_cons. intros H.
    apply orb_false_iff in H as [Hc Hp].
    change (String c p ++ String sep q) with (String c (p ++ String sep q)).
    simpl. rewrite Ascii.eqb_sym, Hc, (IH Hp). reflexivity.
Qed.

End JsFacts.

(** ** Base64 decoding inverts encoding *)
Module Base64Facts.
Import Base64.

Lemma get_in (n : nat) (s : string) (c : ascii) :
  String.get n s = Some c -> In c (list_ascii_of_string s).
Proof.
  revert n. induction s as [|d s IH]; intros n H; [discriminate|].
  destruct n as [|n]; simpl in *.
  - left. congruence.
  - right. eauto.
Qed.

(** Every digit is a character of the alphabet, whatever the argument. *)
Lemma digit_in_alphabet (v : N) : In (digit v) (list_ascii_of_string alphabet).
Proof.
  unfold digit. destruct (String.get (N.to_nat v) alphabet) eqn:E.
  - eapply get_in; eassumption.
  - left. reflexivity.
Qed.

Lemma alphabet_excludes (c : ascii) :
  forallb (fun d => negb (Ascii.eqb d c)) (list_ascii_of_string alphabet) = true ->
  forall v, Ascii.eqb (digit v) c = false.
Proof.
  intros H v. rewrite forallb_forall in H.
  apply negb_true_iff, H, digit_in_alphabet.
Qed.

Lemma digit_not_pad (v : N) : Ascii.eqb (digit v) pad = false.
Proof. apply alphabet_excludes. reflexivity. Qed.

Lemma comma_not_digit (v : N) : Ascii.eqb ","%char (digit v) = false.
Proof. rewrite Ascii.eqb_sym. apply alphabet_excludes. reflexivity. Qed.

(** [value] inverts [digit] on six-bit values. *)
Lemma value_digit (v : N) : (v < 64)%N -> value (digit v) = Some v.
Proof.
  intros H.
  assert (In (N.to_nat v) (seq 0 64)) as Hin by (apply in_seq; lia).
  assert (forallb (fun n => match value (digit (N.of_nat n)) with
                            | Some u => N.eqb u (N.of_nat n)
                            | None => false
                            end) (seq 0 64) = true) as Hall by (vm_compute; reflexivity).
  rewrite forallb_forall in Hall. specialize (Hall _ Hin).
  rewrite N2Nat.id in Hall.
  destruct (value (digit v)) as [u|]; [|discriminate].
  apply N.eqb_eq in Hall. now subst.
Qed.

Ltac byte_bounds :=
  repeat match goal with
         | b : byte |- _ =>
             lazymatch goal with
             | _ : (Byte.to_N b <= 255)%N |- _ => fail
             | _ => pose proof (Byte.to_N_bounded b)
             end
         end.

Ltac sextet_arith :=
  byte_bounds; zify; Z.to_euclidean_division_equations; lia.

(** Induction over a list three elements at a time. *)
Lemma list_ind3 {A} (P : list A -> Prop) :
  P [] -> (forall a, P [a]) -> (forall a b, P [a; b]) ->
  (forall a b c l, P l -> P (a :: b :: c :: l)) ->
  forall l, P l.
Proof.
  intros H0 H1 H2 H3.
  assert (forall l, P l /\ (forall a, P (a :: l)) /\ (forall a b, P (a :: b :: l))) as H.
  { induction l as [|x l (IHa & IHb & IHc)]; repeat split; auto. }
  intros l. apply H.
Qed.

Lemma decode_quad (v1 v2 v3 v4 : N) (rest : string) :
  (v1 < 64)%N -> (v2 < 64)%N -> (v3 < 64)%N -> (v4 < 64)%N ->
  decode (quad (digit v1) (digit v2) (digit v3) (digit v4) rest)
  = bind (Byte.of_N (v1 * 4 + v2 / 16)) (fun b1 =>
    bind (Byte.of_N (v2 mod 16 * 16 + v3 / 4)) (fun b2 =>
    bind (Byte.of_N (v3 mod 4 * 64 + v4)) (fun b3 =>
    bind (decode rest) (fun tl => Some (b1 :: b2 :: b3 :: tl))))).
Proof.
  intros H1 H2 H3 H4. unfold quad.
  cbn [decode]. rewrite !value_digit, !digit_not_pad by assumption.
  reflexivity.
Qed.

Lemma decode_quad_pad1 (v1 v2 v3 : N) :
  (v1 < 64)%N -> (v2 < 64)%N -> (v3 < 64)%N ->
  decode (quad (digit v1) (digit v2) (digit v3) pad EmptyString)
  = bind (Byte.of_N (v1 * 4 + v2 / 16)) (fun b1 =>
    bind (Byte.of_N (v2 mod 16 * 16 + v3 / 4)) (fun b2 => Some [b1; b2])).
Proof.
  intros H1 H2 H3. unfold quad.
  cbn [decode]. rewrite !value_digit, !digit_not_pad by assumption.
  reflexivity.
Qed.

Lemma decode_quad_pad2 (v1 v2 : N) :
  (v1 < 64)%N -> (v2 < 64)%N ->
  decode (quad (digit v1) (digit v2) pad pad EmptyString)
  = bind (Byte.of_N (v1 * 4 + v2 / 16)) (fun b1 => Some [b1]).
Proof.
  intros H1 H2. unfold quad.
  cbn [decode]. rewrite !value_digit by assumption.
  reflexivity.
Qed.

Lemma of_N_eq (n : N) (b : byte) : n = Byte.to_N b -> Byte.of_N n = Some b.
Proof. intros ->. apply Byte.of_to_N. Qed.

Theorem decode_encode (bs : list byte) : decode (encode bs) = Some bs.
Proof.
  induction bs as [|a|a b|a b c rest IH] using list_ind3.
  - reflexivity.
  - cbn [encode]. rewrite decode_quad_pad2 by sextet_arith.
    rewrite (of_N_eq _ a) by sextet_arith. reflexivity.
  - cbn [encode]. rewrite decode_quad_pad1 by sextet_arith.
    rewrite (of_N_eq _ a), (of_N_eq _ b) by sextet_arith. reflexivity.
  - cbn [encode]. rewrite decode_quad by sextet_arith.
    rewrite (of_N_eq _ a), (of_N_eq _ b), (of_N_eq _ c), IH by sextet_arith.
    reflexivity.
Qed.

(** The encoding contains no comma. *)
Lemma encode_no_comma (bs : list byte) :
  Js.includes ","%string (encode bs) = false.
Proof.
  induction bs as [|a|a b|a b c rest IH] using list_ind3;
    cbn [encode]; unfold quad;
    rewrite ?JsFacts.includes_char_cons, ?comma_not_digit, ?IH; reflexivity.
Qed.

End Base64Facts.

(** ** The codec, [blobToBase64] *)
Module CodecCorrect.
Import Js GeminiService.

Lemma declaredType_no_comma (mediaType : string) :
  includes "," mediaType = false ->
  includes "," (Browser.declaredType mediaType) = false.
Proof. destruct mediaType; [reflexivity | intros H; exact H]. Qed.

Lemma dataURL_split (mediaType : string) (bs : list byte) :
  includes "," mediaType = false ->
  split ","%char (Browser.readAsDataURL mediaType bs)
  = ["data:" ++ Browser.declaredType mediaType ++ ";base64"; Base64.encode bs].
Proof.
  intros Hm. apply declaredType_no_comma in Hm.
  unfold Browser.readAsDataURL. generalize dependent (Browser.declaredType mediaType).
  intros t Ht.
  change (";base64," ++ Base64.encode bs)
    with (";base64" ++ String ","%char (Base64.encode bs)).
  replace ("data:" ++ t ++ ";base64" ++ String ","%char (Base64.encode bs))
    with (("data:" ++ t ++ ";base64") ++ String ","%char (Base64.encode bs))
    by now rewrite !JsFacts.append_assoc.
  rewrite JsFacts.split_at_first_sep.
  - now rewrite JsFacts.split_without_sep by apply Base64Facts.encode_no_comma.
  - change (includes "," ("data:" ++ (t ++ ";base64")) = false).
    now rewrite !JsFacts.includes_char_append, Ht.
Qed.

(** C9. For a readable blob whose media type contains no comma,
    [blobToBase64] resolves with the base64 text of the blob's bytes (the
    data URL without its prefix up to the first comma), and decoding that
    text gives back exactly the bytes. *)
Theorem blobToBase64_roundtrip (url mediaType : string) (bs : list byte) :
  includes "," mediaType = false ->
  exists b64,
    blobToBase64 (Browser.mkFile url mediaType (Some bs)) = Resolved (Some b64)
    /\ Browser.readAsDataURL mediaType bs
       = "data:" ++ Browser.declaredType mediaType ++ ";base64," ++ b64
    /\ Base64.decode b64 = Some bs.
Proof.
  intros Hm. exists (Base64.encode bs). repeat split.
  - unfold blobToBase64. cbn [Browser.file_bytes Browser.file_type].
    now rewrite (dataURL_split _ _ Hm).
  - apply Base64Facts.decode_encode.
Qed.

Lemma blobToBase64_roundtrip_witness :
  includes "," "image/jpeg" = false
  /\ exists b64,
       blobToBase64 Examples.photoA = Resolved (Some b64)
       /\ Browser.readAsDataURL "image/jpeg" [xff; xd8; xff; xe0]%byte
          = "data:" ++ Browser.declaredType "image/jpeg" ++ ";base64," ++ b64
       /\ Base64.decode b64 = Some [xff; xd8; xff; xe0]%byte.
Proof.
  split; [reflexivity|].
  apply (blobToBase64_roundtrip "blob:photo-a" "image/jpeg" [xff; xd8; xff; xe0]%byte).
  reflexivity.
Defined.

(** The hypothesis on the media type is needed: the second segment of the
    split is not the payload when the type itself holds a comma. *)
Example blobToBase64_comma_in_type :
  blobToBase64 (Browser.mkFile "blob:x" "a,b" (Some [xff; xd8]%byte))
  = Resolved (Some "b;base64").
Proof. reflexivity. Qed.

Example blobToBase64_photoA : blobToBase64 Examples.photoA = Resolved (Some "/9j/4A==").
Proof. reflexivity. Qed.

End CodecCorrect.

(** ** The adapter, [generateExpandedImage] *)
Module AdapterCorrect.
Import Js Types GeminiService App.




(** A resolved adapter call never yields the empty string. *)
Lemma extractImage_truthy (ps : list Part) (result : string) :
  extractImage ps = Resolved result -> truthy (Some result) = true.
Proof.
  induction ps as [|p ps IH]; simpl; intros H; [discriminate|].
  destruct (inlineData p); [|auto].
  injection H as <-. reflexivity.
Qed.



End AdapterCorrect.

(** ** The handlers of [App.tsx], one at a time *)
Module HandlerCorrect.
Import Js Types GeminiService App Session.

Lemma world_eta (w : World) : mkWorld (st w) (reads w) (inflight w) (sent w) = w.
Proof. now destruct w. Qed.

(** A click that runs no handler leaves the world as it is. *)
Lemma exec_click_refused (w : World) :
  Ui.clickGenerate (st w) = (st w, None) -> exec ClickGenerate w = w.
Proof.
  intros H. cbn [exec]. rewrite H. cbn [option_list].
  rewrite !app_nil_r. apply world_eta.
Qed.

(** C4 (the code differs). [handleClear] sets the status to [idle] and
    clears the original, encoded and generated image, but leaves the error
    message as it was: after a failed generation followed by a reset the
    session is [idle] and still holds the message of the failure. *)
Theorem handleClear_keeps_errorMsg :
  (forall s,
      status (handleClear s) = idle
      /\ originalImage (handleClear s) = None
      /\ originalImageBase64 (handleClear s) = None
      /\ generatedImage (handleClear s) = None
      /\ errorMsg (handleClear s) = errorMsg s)
  /\ (let s := st (run Examples.failedThenResetTrace (initialWorld Examples.keyed)) in
      status s = idle /\ errorMsg s = Some "Quota exceeded").
Proof.
  split.
  - intros s. repeat split.
  - split; reflexivity.
Qed.

(** C2 (the code differs). [handleImageUpload] never touches the encoded
    image before the read settles, and leaves it as it was when the read
    fails.  In the run below the session ends up showing photo B with the
    failure message while holding the encoding of photo A, and the next
    click on the generate button sends that encoding. *)
Theorem failed_upload_keeps_previous_encoding :
  (forall s file,
      originalImageBase64 (handleImageUpload_begin file s) = originalImageBase64 s)
  /\ (forall s url mediaType,
         let file := Browser.mkFile url mediaType None in
         originalImage (handleImageUpload file s) = Some url
         /\ originalImageBase64 (handleImageUpload file s) = originalImageBase64 s
         /\ errorMsg (handleImageUpload file s) = Some uploadFailedMsg)
  /\ (let w := run Examples.staleEncodingTrace (initialWorld Examples.keyed) in
      originalImage (st w) = Some "blob:photo-b"
      /\ originalImageBase64 (st w) = Some "/9j/4A=="
      /\ blobToBase64 Examples.photoA = Resolved (Some "/9j/4A==")
      /\ errorMsg (st w) = Some uploadFailedMsg
      /\ map req_data (sent (exec ClickGenerate w)) = ["/9j/4A=="]).
Proof.
  split; [|split].
  - reflexivity.
  - intros s url mediaType. repeat split.
  - repeat split.
Qed.

(** When the session holds no encoding before the upload (as on first
    use and after an uninterrupted reset), the upload leaves either both
    images set from the new file, or the failure message and no encoding,
    so that [handleGenerate] refuses to run. *)
Lemma upload_from_empty (s : State) (file : Browser.File) :
  originalImageBase64 s = None ->
  let s' := handleImageUpload file s in
  match blobToBase64 file with
  | Resolved b64 =>
      originalImage s' = Some (Browser.file_url file)
      /\ originalImageBase64 s' = b64 /\ errorMsg s' = None
  | Rejected _ =>
      errorMsg s' = Some uploadFailedMsg
      /\ originalImageBase64 s' = None
      /\ handleGenerate_begin s' = (s', None)
  end.
Proof.
  intros H. unfold handleImageUpload.
  destruct (blobToBase64 file) as [b64|e]; cbn; repeat split; try assumption.
  unfold handleGenerate_begin, generateRefused. cbn. now rewrite H.
Qed.

(** C5. When the adapter call fails with a message containing
    "Requested entity was not found", [handleGenerate] sets the status to
    [error], sets the credential flag to [false], and stores the message
    "API Key issue. Please select your key again."; a further
    [handleGenerate] is then refused until a key is selected. *)
Theorem credential_failure_demotes (s : State) (m : string) :
  includes "Requested entity was not found" m = true ->
  let s' := handleGenerate_settle (generateExpandedImage_settle (Rejected (Error m))) s in
  status s' = error
  /\ apiKeySet s' = false
  /\ errorMsg s' = Some "API Key issue. Please select your key again."
  /\ handleGenerate_begin s' = (s', None).
Proof.
  intros Hm.
  assert (is_empty m = false) as Hne
    by (eapply JsFacts.includes_nonempty; [|exact Hm]; reflexivity).
  cbn [generateExpandedImage_settle handleGenerate_settle].
  unfold handleGenerate_catch, isCredentialFailure, credentialMarker.
  cbn [message Error]. rewrite Hne, Hm. cbn [negb andb].
  repeat split.
  unfold handleGenerate_begin, generateRefused. cbn.
  now rewrite orb_true_r.
Qed.

Lemma credential_failure_demotes_witness :
  includes "Requested entity was not found"
           "404 NOT_FOUND: Requested entity was not found." = true
  /\ (let s' := handleGenerate_settle
                  (generateExpandedImage_settle
                     (Rejected (Error "404 NOT_FOUND: Requested entity was not found.")))
                  Examples.generatingState in
      status s' = error
      /\ apiKeySet s' = false
      /\ errorMsg s' = Some "API Key issue. Please select your key again."
      /\ handleGenerate_begin s' = (s', None)).
Proof.
  split; [reflexivity|].
  apply (credential_failure_demotes Examples.generatingState
           "404 NOT_FOUND: Requested entity was not found.").
  reflexivity.
Defined.

(** C7. Whatever the adapter call fails with, a failed generation leaves
    the original image, the encoded image and the selected ratio as they
    were before the attempt: neither the start of [handleGenerate] nor its
    [catch] block writes them. *)
Theorem failed_generation_frame (s : State) (err : Thrown) :
  (let s' := handleGenerate_catch err s in
   originalImage s' = originalImage s
   /\ originalImageBase64 s' = originalImageBase64 s
   /\ selectedRatio s' = selectedRatio s)
  /\ (let s' := handleGenerate_settle (generateExpandedImage_settle (Rejected err))
                                      (fst (handleGenerate_begin s)) in
      originalImage s' = originalImage s
      /\ originalImageBase64 s' = originalImageBase64 s
      /\ selectedRatio s' = selectedRatio s).
Proof.
  cbn [generateExpandedImage_settle handleGenerate_settle].
  unfold handleGenerate_begin, handleGenerate_catch.
  destruct (generateRefused s), (isCredentialFailure err); repeat split.
Qed.

(** C8. From any state, [handleImageUpload] clears the generated image and
    the stored error message before it starts reading the file; when the
    handler has finished, the generated image is still cleared and the error
    message is either cleared (the read succeeded) or the fresh message of
    this upload's own failure. *)
Theorem upload_clears_result_and_error (s : State) (file : Browser.File) :
  generatedImage (handleImageUpload_begin file s) = None
  /\ errorMsg (handleImageUpload_begin file s) = None
  /\ generatedImage (handleImageUpload file s) = None
  /\ errorMsg (handleImageUpload file s)
     = match blobToBase64 file with
       | Resolved _ => None
       | Rejected _ => Some uploadFailedMsg
       end.
Proof.
  unfold handleImageUpload.
  destruct (blobToBase64 file); repeat split.
Qed.

(** C10. Without a credential ([apiKeySet] is [false]) [handleGenerate]
    returns at its guard, whether or not an encoded image is present: the
    state is unchanged and no request is sent; the same holds for a click
    on the generate button, which is not even rendered then. *)
Theorem generate_needs_credential (w : World) :
  apiKeySet (st w) = false ->
  handleGenerate_begin (st w) = (st w, None)
  /\ exec ClickGenerate w = w
  /\ sent (exec ClickGenerate w) = sent w.
Proof.
  intros H.
  assert (Ui.clickGenerate (st w) = (st w, None)) as Hc
    by (unfold Ui.clickGenerate, Ui.generateButtonEnabled; now rewrite H).
  split; [|split].
  - unfold handleGenerate_begin, generateRefused. now rewrite H, orb_true_r.
  - now apply exec_click_refused.
  - now rewrite exec_click_refused.
Qed.

Lemma generate_needs_credential_witness :
  let w := mkWorld (setApiKeySet false Examples.readyState) [] [] [] in
  apiKeySet (st w) = false
  /\ truthy (originalImageBase64 (st w)) = true
  /\ handleGenerate_begin (st w) = (st w, None)
  /\ exec ClickGenerate w = w
  /\ sent (exec ClickGenerate w) = sent w.
Proof.
  split; [reflexivity|]. split; [reflexivity|].
  apply (generate_needs_credential
           (mkWorld (setApiKeySet false Examples.readyState) [] [] [])).
  reflexivity.
Defined.

Lemma clickGenerate_while_generating (s : State) :
  status s = generating -> Ui.clickGenerate s = (s, None).
Proof.
  intros H. unfold Ui.clickGenerate, Ui.generateButtonEnabled, Ui.isGenerating.
  rewrite H. cbn. now rewrite !andb_false_r.
Qed.

Lemma clickGenerate_accepted (s s' : State) (req : Request) :
  Ui.clickGenerate s = (s', Some req) -> status s' = generating.
Proof.
  unfold Ui.clickGenerate, handleGenerate_begin.
  destruct (Ui.generateButtonEnabled s); [|discriminate].
  destruct (generateRefused s); [discriminate|].
  intros H. injection H as <- _. reflexivity.
Qed.

Lemma clickGenerate_refused (s s' : State) :
  Ui.clickGenerate s = (s', None) -> s' = s.
Proof.
  unfold Ui.clickGenerate, handleGenerate_begin.
  destruct (Ui.generateButtonEnabled s); [|congruence].
  destruct (generateRefused s); [congruence|discriminate].
Qed.

End HandlerCorrect.

(** ** The session as a whole: what holds in every reachable state *)
Module SessionCorrect.
Import Js Types GeminiService App Session.

Lemma remove_last_inflight {A} (i : nat) (l : list A) (x : A) :
  List.length l <= 1 -> nth_error l i = Some x -> remove_at i l = [].
Proof.
  destruct l as [|y [|z l]]; cbn [List.length]; intros Hlen Hnth.
  - destruct i; discriminate.
  - destruct i as [|i]; [reflexivity|]. destruct i; discriminate.
  - lia.
Qed.

Lemma nth_error_nonempty {A} (i : nat) (l : list A) (x : A) :
  nth_error l i = Some x -> l <> [].
Proof. destruct l; [destruct i; discriminate | discriminate]. Qed.

Lemma settle_truthy (remote : Settled Response) (result : string) :
  generateExpandedImage_settle remote = Resolved result ->
  truthy (Some result) = true.
Proof.
  destruct remote as [response|e]; cbn; [|discriminate].
  apply AdapterCorrect.extractImage_truthy.
Qed.

Lemma falsy_not_truthy (v : option string) :
  truthy v = false -> (v <> None -> truthy v = true) -> v = None.
Proof.
  intros Hf Ht. destruct v as [x|]; [|reflexivity].
  rewrite Ht in Hf by discriminate. discriminate.
Qed.













Import Runs.

Lemma calm_initial (probe : option (Settled bool)) : CalmInvariant (initialWorld probe).
Proof.
  unfold CalmInvariant, errorOnlyOnFailureOrIdle, initialWorld.
  destruct probe as [[b|e]|]; cbn; repeat split; (lia || congruence).
Qed.

Ltac calm_same Hinv :=
  unfold CalmInvariant, errorOnlyOnFailureOrIdle in *; cbn in *; exact Hinv.

Lemma not_generating_nothing_in_flight (w : World) :
  (inflight w <> [] -> status (st w) = generating /\ generatedImage (st w) = None) ->
  Ui.isGenerating (st w) = false -> inflight w = [].
Proof.
  intros Hfl Hidle. destruct (inflight w) as [|x l] eqn:E; [reflexivity|].
  destruct Hfl as [Hst _]; [discriminate|].
  unfold Ui.isGenerating in Hidle. rewrite Hst in Hidle. discriminate.
Qed.

Lemma calm_exec_preserves (a : Action) (w : World) :
  negb (isReset a && Ui.isGenerating (st w)) = true ->
  CalmInvariant w -> CalmInvariant (exec a w).
Proof.
  intros Hcalm Hinv.
  destruct a as [file | i | r | | i remote | | | flow]; cbn [exec].
  - (* a file is picked *)
    destruct (Ui.fileInputEnabled (st w)); [|assumption].
    destruct Hinv as (Hlen & Hfl & _ & _).
    unfold CalmInvariant, errorOnlyOnFailureOrIdle. cbn.
    repeat split; try assumption; try congruence. now apply Hfl.
  - (* a read settles *)
    destruct (nth_error (reads w) i) as [[b64|e]|]; [| |assumption].
    + calm_same Hinv.
    + destruct Hinv as (Hlen & Hfl & Hgen & _).
      unfold CalmInvariant, errorOnlyOnFailureOrIdle. cbn.
      repeat split; try assumption; try (now apply Hfl); try (now apply Hgen).
      intros _. right. right. left. reflexivity.
  - (* a ratio is chosen *)
    destruct (Ui.ratioButtonsEnabled (st w)); [|assumption]. calm_same Hinv.
  - (* the generate button is clicked *)
    destruct (Ui.clickGenerate (st w)) as [s' [req|]] eqn:E.
    + unfold Ui.clickGenerate, handleGenerate_begin in E.
      destruct (Ui.generateButtonEnabled (st w)) eqn:Hon; [|discriminate].
      destruct (generateRefused (st w)); [discriminate|].
      injection E as <- _.
      unfold Ui.generateButtonEnabled, Ui.buttonDisabled in Hon.
      apply andb_prop in Hon as [Hon Hidle].
      apply andb_prop in Hon as [_ Hfalsy].
      apply negb_true_iff in Hfalsy. apply negb_true_iff in Hidle.
      destruct Hinv as (Hlen & Hfl & Hgen & _).
      assert (generatedImage (st w) = None) as Hnone.
      { apply falsy_not_truthy; [assumption|]. intros H. now apply Hgen. }
      rewrite (not_generating_nothing_in_flight w Hfl Hidle).
      unfold CalmInvariant, errorOnlyOnFailureOrIdle. cbn.
      repeat split; cbn; try assumption; try congruence; lia.
    + apply HandlerCorrect.clickGenerate_refused in E as E'. subst s'.
      cbn [option_list]. rewrite !app_nil_r.
      now rewrite HandlerCorrect.world_eta.
  - (* an adapter call settles *)
    destruct (nth_error (inflight w) i) as [req|] eqn:E; [|assumption].
    destruct Hinv as (Hlen & Hfl & Hgen & Herr).
    destruct Hfl as [Hst Hnone]; [eapply nth_error_nonempty; eassumption|].
    unfold CalmInvariant, errorOnlyOnFailureOrIdle. cbn [st inflight].
    rewrite (remove_last_inflight _ _ _ Hlen E).
    destruct (generateExpandedImage_settle remote) as [result|err] eqn:Eo.
    + cbn. repeat split; try congruence; try lia.
      * apply (settle_truthy _ _ Eo).
      * intros Hmsg. right. right.
        destruct (Herr Hmsg) as [Hbad|[Hbad|Hok]]; [congruence|congruence|exact Hok].
    + cbn [handleGenerate_settle]. unfold handleGenerate_catch.
      destruct (isCredentialFailure err); cbn;
        repeat split; try congruence; try lia; intros _; now left.
  - (* Reset is clicked, and not while generating *)
    destruct (Ui.resetEnabled (st w)); [|assumption].
    cbn [isReset andb] in Hcalm. apply negb_true_iff in Hcalm.
    destruct Hinv as (Hlen & Hfl & _ & _).
    pose proof (not_generating_nothing_in_flight w Hfl Hcalm) as Hempty.
    unfold CalmInvariant, errorOnlyOnFailureOrIdle. cbn. rewrite Hempty.
    repeat split; cbn; try congruence; try lia.
    intros _. right. left. reflexivity.
  - (* the result is discarded *)
    destruct (Ui.discardEnabled (st w)); [|assumption].
    destruct Hinv as (Hlen & Hfl & _ & Herr).
    unfold CalmInvariant, errorOnlyOnFailureOrIdle. cbn.
    repeat split; try assumption; try congruence. now apply Hfl.
  - (* the key flow runs *)
    destruct (Ui.connectScreen (st w)); [|assumption].
    destruct flow as [[u|e]|]; [calm_same Hinv| |calm_same Hinv].
    destruct Hinv as (Hlen & Hfl & Hgen & _).
    unfold CalmInvariant, errorOnlyOnFailureOrIdle. cbn.
    repeat split; try assumption; try (now apply Hfl); try (now apply Hgen).
    intros _. right. right. right. reflexivity.
Qed.

Lemma calm_run_preserves (acts : list Action) (w : World) :
  calm acts w = true -> CalmInvariant w -> CalmInvariant (run acts w).
Proof.
  revert w. induction acts as [|a acts IH]; intros w Hcalm Hinv; [assumption|].
  cbn [calm] in Hcalm. apply andb_prop in Hcalm as [Ha Hrest].
  cbn [run]. apply IH; [exact Hrest|]. now apply calm_exec_preserves.
Qed.



(** A click on the generate button while the status is [generating]
    changes nothing and sends nothing (the button is disabled through
    [isLoading]); a second click right after a first one is always without
    effect, so two clicks in a row send at most one request, and exactly
    the request of the first click when that one is accepted. *)
Lemma generate_click_idempotent (w : World) :
  (status (st w) = generating -> exec ClickGenerate w = w)
  /\ run [ClickGenerate; ClickGenerate] w = exec ClickGenerate w
  /\ List.length (sent (run [ClickGenerate; ClickGenerate] w)) <= S (List.length (sent w))
  /\ (forall s' req,
         Ui.clickGenerate (st w) = (s', Some req) ->
         sent (run [ClickGenerate; ClickGenerate] w) = (sent w ++ [req])%list).
Proof.
  assert (forall v, status (st v) = generating -> exec ClickGenerate v = v) as Hgen.
  { intros v H. apply HandlerCorrect.exec_click_refused.
    now apply HandlerCorrect.clickGenerate_while_generating. }
  assert (run [ClickGenerate; ClickGenerate] w = exec ClickGenerate w) as Htwice.
  { cbn [run]. destruct (Ui.clickGenerate (st w)) as [s' [req|]] eqn:E.
    - apply Hgen. cbn [exec]. rewrite E. cbn [st].
      eapply HandlerCorrect.clickGenerate_accepted; eassumption.
    - apply HandlerCorrect.clickGenerate_refused in E as E'. subst s'.
      now rewrite !(HandlerCorrect.exec_click_refused w E). }
  split; [exact (Hgen w)|]. split; [exact Htwice|]. split.
  - rewrite Htwice. cbn [exec].
    destruct (Ui.clickGenerate (st w)) as [s' [req|]]; cbn [sent option_list];
      rewrite List.length_app; cbn [List.length]; lia.
  - intros s' req E. rewrite Htwice. cbn [exec]. now rewrite E.
Qed.

(** As long as Reset is not clicked while generating, at most one adapter
    call is in flight. *)
Lemma calm_single_flight (probe : option (Settled bool)) (acts : list Action) :
  calm acts (initialWorld probe) = true ->
  List.length (inflight (run acts (initialWorld probe))) <= 1.
Proof.
  intros Hcalm.
  now destruct (calm_run_preserves acts (initialWorld probe) Hcalm (calm_initial probe)).
Qed.

(** C1 (the code differs). The Reset text button is rendered without a
    [disabled] attribute, unlike the X button of the preview that calls the
    same [handleClear]: it can be clicked while a generation is in flight.
    The status is then [idle] again, and after a new upload the generate
    button is enabled and sends a second request while the first call has
    not settled: two generations are in flight in one session. *)
Theorem reset_while_generating_allows_second_call :
  let w0 := initialWorld Examples.keyed in
  let w1 := run MoreExamples.firstGenerationTrace w0 in
  let w2 := exec ClickReset w1 in
  let w3 := run [PickFile Examples.photoA; ReadSettles 0] w2 in
  status (st w1) = generating
  /\ List.length (inflight w1) = 1
  /\ Ui.resetEnabled (st w1) = true
  /\ status (st w2) = idle
  /\ List.length (inflight w2) = 1
  /\ Ui.generateButtonEnabled (st w3) = true
  /\ run Examples.twoInFlightTrace w0 = exec ClickGenerate w3
  /\ List.length (inflight (run Examples.twoInFlightTrace w0)) = 2
  /\ List.length (sent (run Examples.twoInFlightTrace w0)) = 2
  /\ calm Examples.twoInFlightTrace w0 = false.
Proof. vm_compute. repeat split. Qed.

Example two_clicks_one_request :
  map req_data (sent (run [ClickGenerate; ClickGenerate]
                          (mkWorld Examples.readyState [] [] []))) = ["/9j/4A=="].
Proof. reflexivity. Qed.

(** With the Reset button, which stays enabled while generating, a
    result can be held in status [error]. *)
Example reset_allows_result_in_error :
  let s := st (run Examples.resultThenErrorTrace (initialWorld Examples.keyed)) in
  generatedImage s = Some "data:image/png;base64,AAAA" /\ status s = error.
Proof. split; reflexivity. Qed.

End SessionCorrect.

(** ** Further properties of the adapter and the codec *)
Module AdapterEdges.
Import Js Types GeminiService App Runs.

Lemma extractImage_png (ps : list Part) (result : string) :
  extractImage ps = Resolved result -> isPngDataUri result.
Proof.
  induction ps as [|p ps IH]; simpl; intros H; [discriminate|].
  destruct (inlineData p) as [inline|]; [|auto].
  injection H as <-. now exists (interpolate (data inline)).
Qed.

Lemma settle_png (remote : Settled Response) (result : string) :
  generateExpandedImage_settle remote = Resolved result -> isPngDataUri result.
Proof.
  destruct remote as [response|e]; cbn; [|discriminate].
  apply extractImage_png.
Qed.

(** X1. The adapter reads the parts of the first candidate only: further
    candidates never change its outcome, and a response without
    candidates, without content in the first candidate, or without parts
    there, fails with "No image data found in response". *)
Theorem only_first_candidate_is_read (c : Candidate) (cs : list Candidate) :
  generateExpandedImage_settle (Resolved (mkResponse (Some (c :: cs))))
  = generateExpandedImage_settle (Resolved (mkResponse (Some [c])))
  /\ generateExpandedImage_settle (Resolved (mkResponse None))
     = Rejected (Error "No image data found in response")
  /\ generateExpandedImage_settle (Resolved (mkResponse (Some [])))
     = Rejected (Error "No image data found in response")
  /\ generateExpandedImage_settle
       (Resolved (mkResponse (Some (mkCandidate None :: cs))))
     = Rejected (Error "No image data found in response")
  /\ generateExpandedImage_settle
       (Resolved (mkResponse (Some (mkCandidate (Some (mkContent None)) :: cs))))
     = Rejected (Error "No image data found in response")
  /\ generateExpandedImage_settle
       (Resolved (mkResponse (Some (mkCandidate (Some (mkContent (Some []))) :: cs))))
     = Rejected (Error "No image data found in response").
Proof. repeat split. Qed.

Example image_in_second_candidate_is_lost :
  generateExpandedImage_settle (Resolved MoreExamples.imageInSecondCandidate)
  = Rejected (Error "No image data found in response").
Proof. reflexivity. Qed.

(** X2. Whenever the adapter call resolves, its result is a non-empty
    string of the form [data:image/png;base64,...], whatever media type
    the part of the response declares. *)
Theorem adapter_result_is_png_data_uri (remote : Settled Response) (result : string) :
  generateExpandedImage_settle remote = Resolved result ->
  isPngDataUri result /\ truthy (Some result) = true.
Proof.
  intros H. split.
  - eapply settle_png; eassumption.
  - eapply SessionCorrect.settle_truthy; eassumption.
Qed.

Lemma adapter_result_is_png_data_uri_witness :
  generateExpandedImage_settle
    (Resolved (Examples.responseOf
                 [mkPart None (Some (mkInlineData (Some "AAAA") (Some "image/jpeg")))]))
  = Resolved "data:image/png;base64,AAAA"
  /\ isPngDataUri "data:image/png;base64,AAAA"
  /\ truthy (Some "data:image/png;base64,AAAA") = true.
Proof.
  split; [reflexivity|].
  apply (adapter_result_is_png_data_uri
           (Resolved (Examples.responseOf
                        [mkPart None (Some (mkInlineData (Some "AAAA") (Some "image/jpeg")))]))
           "data:image/png;base64,AAAA").
  reflexivity.
Defined.

(** No segment of a split contains the separator. *)
Lemma split_segments_clean (sep : ascii) (s : string) :
  Forall (fun seg => includes (String sep EmptyString) seg = false) (split sep s).
Proof.
  induction s as [|c s IH]; simpl.
  - repeat constructor.
  - destruct (Ascii.eqb c sep) eqn:E.
    + constructor; [reflexivity | exact IH].
    + destruct (split sep s) as [|seg segs].
      * constructor; [|constructor].
        rewrite JsFacts.includes_char_cons, Ascii.eqb_sym, E. reflexivity.
      * inversion IH as [|? ? Hseg Hsegs]; subst.
        constructor; [|exact Hsegs].
        now rewrite JsFacts.includes_char_cons, Ascii.eqb_sym, E.
Qed.

Lemma split_nonempty (sep : ascii) (s : string) : split sep s <> [].
Proof.
  destruct s as [|c s]; simpl; [discriminate|].
  destruct (Ascii.eqb c sep); [discriminate|].
  destruct (split sep s); discriminate.
Qed.

(** A string with a separator in it splits into at least two segments. *)
Lemma split_second_segment (sep : ascii) (p q : string) :
  exists seg, at_index (split sep (p ++ String sep q)) 1 = Some seg.
Proof.
  induction p as [|c p [seg IH]].
  - simpl. rewrite Ascii.eqb_refl.
    destruct (split sep q) as [|seg segs] eqn:E; [now apply split_nonempty in E|].
    now exists seg.
  - change (String c p ++ String sep q) with (String c (p ++ String sep q)).
    simpl. destruct (Ascii.eqb c sep).
    + destruct (split sep (p ++ String sep q)) as [|seg0 segs] eqn:E;
        [now apply split_nonempty in E|]. now exists seg0.
    + destruct (split sep (p ++ String sep q)) as [|seg0 segs] eqn:E;
        [now apply split_nonempty in E|]. exists seg. exact IH.
Qed.

(** X3. [blobToBase64] rejects exactly when the blob cannot be read; for
    every readable blob, whatever its media type, it resolves with a
    string (never [undefined]) that contains no comma. *)
Theorem blobToBase64_settles (blob : Browser.File) :
  match Browser.file_bytes blob with
  | None => blobToBase64 blob = Rejected Browser.readError
  | Some _ =>
      exists seg, blobToBase64 blob = Resolved (Some seg) /\ includes "," seg = false
  end.
Proof.
  unfold blobToBase64. destruct (Browser.file_bytes blob) as [bs|]; [|reflexivity].
  unfold Browser.readAsDataURL.
  change (";base64," ++ Base64.encode bs)
    with (";base64" ++ String ","%char (Base64.encode bs)).
  replace ("data:" ++ Browser.declaredType (Browser.file_type blob)
                   ++ ";base64" ++ String ","%char (Base64.encode bs))
    with (("data:" ++ Browser.declaredType (Browser.file_type blob) ++ ";base64")
            ++ String ","%char (Base64.encode bs))
    by now rewrite !JsFacts.append_assoc.
  destruct (split_second_segment ","%char
              ("data:" ++ Browser.declaredType (Browser.file_type blob) ++ ";base64")
              (Base64.encode bs)) as [seg Hseg].
  exists seg. split; [now rewrite Hseg|].
  unfold at_index in Hseg. apply nth_error_In in Hseg.
  pose proof (split_segments_clean ","%char
                (("data:" ++ Browser.declaredType (Browser.file_type blob) ++ ";base64")
                   ++ String ","%char (Base64.encode bs))) as Hall.
  rewrite Forall_forall in Hall. now apply Hall.
Qed.

End AdapterEdges.

(** ** How the handlers compose *)
Module HandlerFlows.
Import Js Types GeminiService App Runs.

(** An enabled generate button together with a stored encoding: the click
    sends the request built from that encoding and the selected ratio. *)
Lemma click_sends (s : State) (b64 : string) :
  Ui.generateButtonEnabled s = true ->
  originalImageBase64 s = Some b64 -> is_empty b64 = false ->
  Ui.clickGenerate s
  = (setErrorMsg None (setStatus generating s),
     Some (buildRequest b64 (selectedRatio s) defaultPromptDescription)).
Proof.
  intros Hon Hb Hne. unfold Ui.clickGenerate. rewrite Hon.
  unfold Ui.generateButtonEnabled in Hon.
  apply andb_prop in Hon as [Hon _]. apply andb_prop in Hon as [Hon _].
  apply andb_prop in Hon as [Hkey _].
  unfold handleGenerate_begin, generateRefused. rewrite Hb, Hkey. cbn.
  now rewrite Hne.
Qed.

(** X4. A failure whose message does not contain the credential marker
    keeps the credential flag, sets the status to [error] and stores the
    message verbatim; without a message, or with an empty one, it stores
    "Something went wrong. Please try again.". *)
Theorem plain_failure_is_reported (s : State) (err : Thrown) :
  isCredentialFailure err = false ->
  let s' := handleGenerate_settle (generateExpandedImage_settle (Rejected err)) s in
  status s' = error
  /\ apiKeySet s' = apiKeySet s
  /\ errorMsg s'
     = Some (match message err with
             | Some m => if is_empty m then "Something went wrong. Please try again." else m
             | None => "Something went wrong. Please try again."
             end).
Proof.
  intros H. cbn [generateExpandedImage_settle handleGenerate_settle].
  unfold handleGenerate_catch. rewrite H.
  unfold messageOrFallback.
  destruct (message err) as [m|]; [destruct m|]; repeat split.
Qed.

Lemma plain_failure_is_reported_witness :
  isCredentialFailure (Error "Quota exceeded") = false
  /\ (let s' := handleGenerate_settle
                  (generateExpandedImage_settle (Rejected (Error "Quota exceeded")))
                  Examples.generatingState in
      status s' = error
      /\ apiKeySet s' = true
      /\ errorMsg s' = Some "Quota exceeded")
  /\ errorMsg (handleGenerate_settle
                 (generateExpandedImage_settle (Rejected (mkThrown None)))
                 Examples.generatingState)
     = Some "Something went wrong. Please try again.".
Proof.
  split; [reflexivity|]. split.
  - apply (plain_failure_is_reported Examples.generatingState (Error "Quota exceeded")).
    reflexivity.
  - apply (plain_failure_is_reported Examples.generatingState (mkThrown None)).
    reflexivity.
Defined.

(** X5. A generation that passes the guard and whose adapter call
    resolves ends in status [success] with the result stored and no error
    message; the images, the ratio and the credential are as before; the
    result section is rendered, the generate button is not, and the
    download link points at the result. *)
Theorem successful_generation (s : State) (remote : Settled Response)
    (result : string) (now : N) :
  generateRefused s = false ->
  generateExpandedImage_settle remote = Resolved result ->
  let s' := handleGenerate_settle (generateExpandedImage_settle remote)
                                  (fst (handleGenerate_begin s)) in
  status s' = success
  /\ generatedImage s' = Some result
  /\ errorMsg s' = None
  /\ originalImage s' = originalImage s
  /\ originalImageBase64 s' = originalImageBase64 s
  /\ selectedRatio s' = selectedRatio s
  /\ apiKeySet s' = apiKeySet s
  /\ Render.resultShown s' = true
  /\ Ui.clickGenerate s' = (s', None)
  /\ option_map Render.href (Render.handleDownload now s') = Some result.
Proof.
  intros Hg Hr.
  pose proof (SessionCorrect.settle_truthy _ _ Hr) as Ht.
  rewrite Hr. unfold handleGenerate_begin. rewrite Hg.
  unfold generateRefused in Hg. apply orb_false_iff in Hg as [_ Hkey].
  apply negb_false_iff in Hkey.
  cbn [fst handleGenerate_settle].
  repeat split.
  - unfold Render.resultShown. cbn. rewrite Hkey. exact Ht.
  - unfold Ui.clickGenerate, Ui.generateButtonEnabled. cbn [generatedImage setStatus
      setGeneratedImage setErrorMsg apiKeySet originalImage status].
    rewrite Ht. cbn. now rewrite !andb_false_r.
  - unfold Render.handleDownload. cbn [generatedImage setStatus setGeneratedImage].
    rewrite Ht. reflexivity.
Qed.

Lemma successful_generation_witness :
  generateRefused Examples.readyState = false
  /\ (let s' := handleGenerate_settle
                  (generateExpandedImage_settle
                     (Resolved (Examples.responseOf [Examples.imagePart "AAAA"])))
                  (fst (handleGenerate_begin Examples.readyState)) in
      status s' = success
      /\ generatedImage s' = Some "data:image/png;base64,AAAA"
      /\ errorMsg s' = None
      /\ originalImage s' = originalImage Examples.readyState
      /\ originalImageBase64 s' = originalImageBase64 Examples.readyState
      /\ selectedRatio s' = selectedRatio Examples.readyState
      /\ apiKeySet s' = apiKeySet Examples.readyState
      /\ Render.resultShown s' = true
      /\ Ui.clickGenerate s' = (s', None)
      /\ option_map Render.href (Render.handleDownload 1700000000000 s')
         = Some "data:image/png;base64,AAAA").
Proof.
  split; [reflexivity|].
  apply (successful_generation Examples.readyState
           (Resolved (Examples.responseOf [Examples.imagePart "AAAA"]))
           "data:image/png;base64,AAAA" 1700000000000); reflexivity.
Defined.

(** X6. While a result is shown a click on the generate button does
    nothing; after "Try Different Ratio" the images are still there and
    the click sends a request built from the same encoding, so no new
    upload is needed. *)
Theorem discard_allows_regeneration (s : State) (b64 : string) :
  apiKeySet s = true ->
  truthy (originalImage s) = true ->
  truthy (generatedImage s) = true ->
  originalImageBase64 s = Some b64 -> is_empty b64 = false ->
  status s <> generating ->
  Ui.clickGenerate s = (s, None)
  /\ originalImage (discardResult s) = originalImage s
  /\ originalImageBase64 (discardResult s) = originalImageBase64 s
  /\ snd (Ui.clickGenerate (discardResult s))
     = Some (buildRequest b64 (selectedRatio s) defaultPromptDescription).
Proof.
  intros Hkey Horig Hgen Hb Hne Hst. repeat split.
  - unfold Ui.clickGenerate, Ui.generateButtonEnabled.
    rewrite Hgen. cbn. now rewrite !andb_false_r.
  - rewrite (click_sends (discardResult s) b64); [reflexivity| |assumption|assumption].
    unfold Ui.generateButtonEnabled, Ui.buttonDisabled, Ui.isGenerating. cbn.
    rewrite Hkey, Horig. destruct (status s); cbn; congruence.
Qed.

Lemma discard_allows_regeneration_witness :
  Ui.clickGenerate MoreExamples.successState = (MoreExamples.successState, None)
  /\ originalImage (discardResult MoreExamples.successState)
     = originalImage MoreExamples.successState
  /\ originalImageBase64 (discardResult MoreExamples.successState)
     = originalImageBase64 MoreExamples.successState
  /\ snd (Ui.clickGenerate (discardResult MoreExamples.successState))
     = Some (buildRequest "/9j/4A==" PORTRAIT defaultPromptDescription).
Proof.
  apply (discard_allows_regeneration MoreExamples.successState "/9j/4A==");
    try reflexivity. discriminate.
Defined.

(** X7. [handleClear] is idempotent and keeps the selected ratio and the
    credential; after it [handleGenerate] returns at its guard, the
    generate button does nothing, and the file input is offered again
    exactly when the credential is set. *)
Theorem reset_returns_to_upload (s : State) :
  handleClear (handleClear s) = handleClear s
  /\ selectedRatio (handleClear s) = selectedRatio s
  /\ apiKeySet (handleClear s) = apiKeySet s
  /\ handleGenerate_begin (handleClear s) = (handleClear s, None)
  /\ Ui.clickGenerate (handleClear s) = (handleClear s, None)
  /\ Ui.fileInputEnabled (handleClear s) = apiKeySet s.
Proof.
  repeat split.
  - unfold Ui.clickGenerate, Ui.generateButtonEnabled. cbn.
    now rewrite andb_false_r.
  - unfold Ui.fileInputEnabled, Ui.isGenerating. cbn. now rewrite !andb_true_r.
Qed.

(** X8. After a credential failure the page shows the connect screen, on
    which the stored message "API Key issue. Please select your key again."
    is not rendered; once the key flow has completed the main screen is
    back and renders that message. *)
Theorem key_issue_shown_after_reconnect (s : State) (m : string) :
  includes "Requested entity was not found" m = true ->
  truthy (originalImage s) = true ->
  truthy (generatedImage s) = false ->
  let s1 := handleGenerate_settle (generateExpandedImage_settle (Rejected (Error m))) s in
  let s2 := handleSelectKey (Some (Resolved tt)) s1 in
  Ui.connectScreen s1 = true
  /\ Render.errorShown s1 = None
  /\ Ui.connectScreen s2 = false
  /\ Render.errorShown s2 = Some "API Key issue. Please select your key again.".
Proof.
  intros Hm Horig Hgen.
  assert (is_empty m = false) as Hne
    by (eapply JsFacts.includes_nonempty; [|exact Hm]; reflexivity).
  cbn [generateExpandedImage_settle handleGenerate_settle].
  unfold handleGenerate_catch, isCredentialFailure, credentialMarker.
  cbn [message Error]. rewrite Hne, Hm. cbn [negb andb].
  repeat split.
  unfold Render.errorShown. cbn. now rewrite Horig, Hgen.
Qed.

Lemma key_issue_shown_after_reconnect_witness :
  let s1 := handleGenerate_settle
              (generateExpandedImage_settle
                 (Rejected (Error "Requested entity was not found.")))
              Examples.generatingState in
  let s2 := handleSelectKey (Some (Resolved tt)) s1 in
  Ui.connectScreen s1 = true
  /\ Render.errorShown s1 = None
  /\ Ui.connectScreen s2 = false
  /\ Render.errorShown s2 = Some "API Key issue. Please select your key again.".
Proof.
  apply (key_issue_shown_after_reconnect Examples.generatingState
           "Requested entity was not found."); reflexivity.
Defined.

(** X9. After a credential failure the generate button does nothing until
    the key flow has completed; then a click sends a request built from the
    encoding and the ratio the session held before the failure. *)
Theorem retry_after_reconnect (s : State) (b64 m : string) :
  Ui.generateButtonEnabled s = true ->
  originalImageBase64 s = Some b64 -> is_empty b64 = false ->
  includes "Requested entity was not found" m = true ->
  let s1 := fst (Ui.clickGenerate s) in
  let s2 := handleGenerate_settle (generateExpandedImage_settle (Rejected (Error m))) s1 in
  let s3 := handleSelectKey (Some (Resolved tt)) s2 in
  Ui.clickGenerate s2 = (s2, None)
  /\ snd (Ui.clickGenerate s3)
     = Some (buildRequest b64 (selectedRatio s) defaultPromptDescription).
Proof.
  intros Hon Hb Hne Hm.
  assert (is_empty m = false) as Hmne
    by (eapply JsFacts.includes_nonempty; [|exact Hm]; reflexivity).
  rewrite (click_sends s b64 Hon Hb Hne). cbn [fst].
  cbn [generateExpandedImage_settle handleGenerate_settle].
  unfold handleGenerate_catch, isCredentialFailure, credentialMarker.
  cbn [message Error]. rewrite Hmne, Hm. cbn [negb andb].
  unfold Ui.generateButtonEnabled in Hon.
  apply andb_prop in Hon as [Hon _]. apply andb_prop in Hon as [Hon Hgen].
  apply andb_prop in Hon as [_ Horig].
  split.
  - unfold Ui.clickGenerate, Ui.generateButtonEnabled. reflexivity.
  - rewrite (click_sends _ b64); [reflexivity| |exact Hb|exact Hne].
    unfold Ui.generateButtonEnabled, Ui.buttonDisabled, Ui.isGenerating. cbn.
    now rewrite Horig, Hgen.
Qed.

Lemma retry_after_reconnect_witness :
  let s1 := fst (Ui.clickGenerate Examples.readyState) in
  let s2 := handleGenerate_settle
              (generateExpandedImage_settle
                 (Rejected (Error "Requested entity was not found."))) s1 in
  let s3 := handleSelectKey (Some (Resolved tt)) s2 in
  Ui.clickGenerate s2 = (s2, None)
  /\ snd (Ui.clickGenerate s3)
     = Some (buildRequest "/9j/4A==" PORTRAIT defaultPromptDescription).
Proof.
  apply (retry_after_reconnect Examples.readyState "/9j/4A=="
           "Requested entity was not found."); reflexivity.
Defined.

End HandlerFlows.

(** ** What holds in every run, with or without reset *)
Module RunInvariants.
Import Js Types GeminiService App Session Runs.

(** A property kept by every action holds after every run. *)
Lemma run_invariant (P : World -> Prop) :
  (forall a w, P w -> P (exec a w)) ->
  forall acts w, P w -> P (run acts w).
Proof.
  intros Hstep acts. induction acts as [|a acts IH]; intros w Hw; [exact Hw|].
  cbn [run]. apply IH, Hstep, Hw.
Qed.

Lemma clickGenerate_locked (s : State) :
  apiKeySet s = false -> Ui.clickGenerate s = (s, None).
Proof.
  intros H. unfold Ui.clickGenerate, Ui.generateButtonEnabled. now rewrite H.
Qed.

Lemma main_control_locked (w : World) (a : Action) :
  apiKeySet (st w) = false -> isMainControl a = true -> exec a w = w.
Proof.
  intros Hkey Ha. destruct a; try discriminate Ha; cbn [exec].
  - unfold Ui.fileInputEnabled. now rewrite Hkey.
  - unfold Ui.ratioButtonsEnabled. now rewrite Hkey.
  - apply HandlerCorrect.exec_click_refused. now apply clickGenerate_locked.
  - unfold Ui.resetEnabled. now rewrite Hkey.
  - unfold Ui.discardEnabled. now rewrite Hkey.
Qed.

(** X10. While the credential flag is [false] the page shows the connect
    screen: picking a file, choosing a ratio, and clicking Generate, Reset
    or Try Different Ratio change nothing. *)
Theorem connect_screen_blocks (w : World) (a : Action) :
  apiKeySet (st w) = false -> isMainControl a = true -> exec a w = w.
Proof. apply main_control_locked. Qed.

Lemma connect_screen_blocks_witness :
  apiKeySet (st MoreExamples.lockedWorld) = false
  /\ isMainControl ClickReset = true
  /\ exec ClickReset MoreExamples.lockedWorld = MoreExamples.lockedWorld.
Proof.
  split; [reflexivity|]. split; [reflexivity|].
  apply (connect_screen_blocks MoreExamples.lockedWorld ClickReset); reflexivity.
Defined.

Lemma locked_step (a : Action) (w : World) :
  grantsKey a = false -> apiKeySet (st w) = false ->
  apiKeySet (st (exec a w)) = false /\ sent (exec a w) = sent w.
Proof.
  intros Ha Hkey.
  destruct (isMainControl a) eqn:Hm.
  - now rewrite (main_control_locked w a Hkey Hm).
  - destruct a as [| i | | | i remote | | | flow]; try discriminate Hm; cbn [exec].
    + destruct (nth_error (reads w) i) as [[b64|e]|]; cbn; auto.
    + destruct (nth_error (inflight w) i); [|auto].
      destruct (generateExpandedImage_settle remote) as [result|err]; cbn; [auto|].
      unfold handleGenerate_catch. destruct (isCredentialFailure err); cbn; auto.
    + unfold Ui.connectScreen. rewrite Hkey. cbn.
      destruct flow as [[u|e]|]; [discriminate Ha| |]; cbn; auto.
Qed.

(** X11. When the mount check finds no key and the key flow never
    completes (in particular when the host object is missing), the
    credential flag stays [false] and no request is ever sent, whatever the
    user does. *)
Theorem no_key_no_request (probe : option (Settled bool)) (acts : list Action) :
  probeGrants probe = false ->
  existsb grantsKey acts = false ->
  apiKeySet (st (run acts (initialWorld probe))) = false
  /\ sent (run acts (initialWorld probe)) = [].
Proof.
  intros Hp Hacts.
  assert (apiKeySet (st (initialWorld probe)) = false
          /\ sent (initialWorld probe) = []) as Hinit.
  { destruct probe as [[b|e]|]; cbn in *; auto. }
  revert Hinit. generalize (initialWorld probe) as w.
  induction acts as [|a acts IH]; intros w Hw; [exact Hw|].
  cbn [existsb] in Hacts. apply orb_false_iff in Hacts as [Ha Hrest].
  cbn [run]. apply (IH Hrest).
  destruct Hw as [Hkey Hsent].
  destruct (locked_step a w Ha Hkey) as [Hkey' Hsent'].
  split; [exact Hkey' | congruence].
Qed.

Lemma no_key_no_request_witness :
  probeGrants None = false
  /\ existsb grantsKey [ConnectKey None; PickFile Examples.photoA; ClickGenerate] = false
  /\ apiKeySet (st (run [ConnectKey None; PickFile Examples.photoA; ClickGenerate]
                        (initialWorld None))) = false
  /\ sent (run [ConnectKey None; PickFile Examples.photoA; ClickGenerate]
               (initialWorld None)) = [].
Proof.
  split; [reflexivity|]. split; [reflexivity|].
  apply (no_key_no_request None
           [ConnectKey None; PickFile Examples.photoA; ClickGenerate]); reflexivity.
Defined.

(** X12. In every run, whenever the status is [generating] at least one
    adapter call is in flight: the loading state is always backed by a
    pending call that will settle it. *)
Theorem generating_has_pending_call (probe : option (Settled bool)) (acts : list Action) :
  status (st (run acts (initialWorld probe))) = generating ->
  inflight (run acts (initialWorld probe)) <> [].
Proof.
  apply (run_invariant (fun w => status (st w) = generating -> inflight w <> [])).
  - intros a w Hw. destruct a as [file | i | r | | i remote | | | flow]; cbn [exec].
    + destruct (Ui.fileInputEnabled (st w)); exact Hw.
    + destruct (nth_error (reads w) i) as [[b64|e]|]; exact Hw.
    + destruct (Ui.ratioButtonsEnabled (st w)); exact Hw.
    + destruct (Ui.clickGenerate (st w)) as [s' [req|]] eqn:E; cbn [st inflight].
      * intros _ Habs. now apply app_eq_nil in Habs as [_ Habs].
      * apply HandlerCorrect.clickGenerate_refused in E. subst s'.
        cbn [option_list]. now rewrite app_nil_r.
    + destruct (nth_error (inflight w) i); [|exact Hw].
      cbn [st]. destruct (generateExpandedImage_settle remote) as [result|err];
        cbn [handleGenerate_settle]; [discriminate|].
      unfold handleGenerate_catch. destruct (isCredentialFailure err); discriminate.
    + destruct (Ui.resetEnabled (st w)); [discriminate | exact Hw].
    + destruct (Ui.discardEnabled (st w)); exact Hw.
    + destruct (Ui.connectScreen (st w)); [|exact Hw].
      destruct flow as [[u|e]|]; exact Hw.
  - destruct probe as [[b|e]|]; discriminate.
Qed.

Lemma generating_has_pending_call_witness :
  status (st (run [PickFile Examples.photoA; ReadSettles 0; ClickGenerate]
                  (initialWorld Examples.keyed))) = generating
  /\ inflight (run [PickFile Examples.photoA; ReadSettles 0; ClickGenerate]
                   (initialWorld Examples.keyed)) <> [].
Proof.
  split; [reflexivity|].
  apply (generating_has_pending_call Examples.keyed
           [PickFile Examples.photoA; ReadSettles 0; ClickGenerate]).
  reflexivity.
Defined.

Lemma begin_request_well_formed (s s' : State) (req : Request) :
  handleGenerate_begin s = (s', Some req) -> wellFormed req.
Proof.
  unfold handleGenerate_begin, generateRefused.
  destruct (originalImageBase64 s) as [b64|]; cbn; [|discriminate].
  destruct (is_empty b64) eqn:E; cbn; [discriminate|].
  destruct (apiKeySet s); cbn; [|discriminate].
  intros H. injection H as _ <-. repeat split. exact E.
Qed.

(** X13. Every request ever sent to the adapter carries a non-empty
    encoded image, the fixed model name, the media type [image/png], the
    size tier [1K], and the prompt text built for the very ratio it asks
    for with the default description. *)
Theorem sent_requests_well_formed (probe : option (Settled bool)) (acts : list Action) :
  Forall wellFormed (sent (run acts (initialWorld probe))).
Proof.
  apply (run_invariant (fun w => Forall wellFormed (sent w))).
  - intros a w Hw. destruct a as [file | i | r | | i remote | | | flow]; cbn [exec].
    + destruct (Ui.fileInputEnabled (st w)); exact Hw.
    + destruct (nth_error (reads w) i); exact Hw.
    + destruct (Ui.ratioButtonsEnabled (st w)); exact Hw.
    + destruct (Ui.clickGenerate (st w)) as [s' [req|]] eqn:E; cbn [sent option_list].
      * apply Forall_app. split; [exact Hw|]. constructor; [|constructor].
        unfold Ui.clickGenerate in E.
        destruct (Ui.generateButtonEnabled (st w)); [|discriminate].
        eapply begin_request_well_formed; eassumption.
      * now rewrite app_nil_r.
    + destruct (nth_error (inflight w) i); exact Hw.
    + destruct (Ui.resetEnabled (st w)); exact Hw.
    + destruct (Ui.discardEnabled (st w)); exact Hw.
    + destruct (Ui.connectScreen (st w)); exact Hw.
  - constructor.
Qed.

(** X14. In every run, a stored generated image is a PNG data URI that
    the adapter returned; so whenever [handleDownload] creates a link, its
    target is such a URI and its file name is [insta-expand-], the time
    stamp in decimal, and [.png]. *)
Theorem download_is_png (probe : option (Settled bool)) (acts : list Action)
    (now : N) (link : Render.Link) :
  Render.handleDownload now (st (run acts (initialWorld probe))) = Some link ->
  generatedImage (st (run acts (initialWorld probe))) = Some (Render.href link)
  /\ isPngDataUri (Render.href link)
  /\ Render.download link = "insta-expand-" ++ Render.decimal now ++ ".png".
Proof.
  assert (forall g, generatedImage (st (run acts (initialWorld probe))) = Some g ->
                    isPngDataUri g) as Hpng.
  { apply (run_invariant (fun w => forall g, generatedImage (st w) = Some g -> isPngDataUri g)).
    - intros a w Hw. destruct a as [file | i | r | | i remote | | | flow]; cbn [exec].
      + destruct (Ui.fileInputEnabled (st w)); [discriminate | exact Hw].
      + destruct (nth_error (reads w) i) as [[b64|e]|]; exact Hw.
      + destruct (Ui.ratioButtonsEnabled (st w)); exact Hw.
      + destruct (Ui.clickGenerate (st w)) as [s' [req|]] eqn:E; cbn [st].
        * unfold Ui.clickGenerate, handleGenerate_begin in E.
          destruct (Ui.generateButtonEnabled (st w)); [|discriminate].
          destruct (generateRefused (st w)); [discriminate|].
          injection E as <- _. exact Hw.
        * apply HandlerCorrect.clickGenerate_refused in E. now subst s'.
      + destruct (nth_error (inflight w) i); [|exact Hw]. cbn [st].
        destruct (generateExpandedImage_settle remote) as [result|err] eqn:Eo;
          cbn [handleGenerate_settle].
        * intros g Hg. injection Hg as <-. eapply AdapterEdges.settle_png; eassumption.
        * unfold handleGenerate_catch. destruct (isCredentialFailure err); exact Hw.
      + destruct (Ui.resetEnabled (st w)); [discriminate | exact Hw].
      + destruct (Ui.discardEnabled (st w)); [discriminate | exact Hw].
      + destruct (Ui.connectScreen (st w)); [|exact Hw].
        destruct flow as [[u|e]|]; exact Hw.
    - destruct probe as [[b|e]|]; discriminate. }
  unfold Render.handleDownload.
  destruct (generatedImage (st (run acts (initialWorld probe)))) as [g|]; [|discriminate].
  destruct (truthy (Some g)); [|discriminate].
  intros H. injection H as <-. cbn. repeat split. now apply Hpng.
Qed.

Lemma download_is_png_witness :
  let acts := [PickFile Examples.photoA; ReadSettles 0; ClickGenerate;
               RemoteSettles 0 (Resolved (Examples.responseOf [Examples.imagePart "AAAA"]))] in
  let link := Render.mkLink "data:image/png;base64,AAAA" "insta-expand-1700000000000.png" in
  Render.handleDownload 1700000000000 (st (run acts (initialWorld Examples.keyed)))
  = Some link
  /\ generatedImage (st (run acts (initialWorld Examples.keyed))) = Some (Render.href link)
  /\ isPngDataUri (Render.href link)
  /\ Render.download link = "insta-expand-" ++ Render.decimal 1700000000000 ++ ".png".
Proof.
  split; [reflexivity|].
  apply (download_is_png Examples.keyed
           [PickFile Examples.photoA; ReadSettles 0; ClickGenerate;
            RemoteSettles 0 (Resolved (Examples.responseOf [Examples.imagePart "AAAA"]))]
           1700000000000).
  reflexivity.
Defined.

(** X15. Only an accepted click on the generate button sends a request:
    if an action changes the list of sent requests, it is such a click, the
    button is enabled, the guard of [handleGenerate] passes, and exactly
    one request is added. *)
Theorem only_generate_sends (a : Action) (w : World) :
  sent (exec a w) <> sent w ->
  a = ClickGenerate
  /\ Ui.generateButtonEnabled (st w) = true
  /\ generateRefused (st w) = false
  /\ exists req, sent (exec a w) = (sent w ++ [req])%list.
Proof.
  intros H. destruct a as [file | i | r | | i remote | | | flow]; cbn [exec] in *.
  - destruct (Ui.fileInputEnabled (st w)); now contradiction H.
  - destruct (nth_error (reads w) i); now contradiction H.
  - destruct (Ui.ratioButtonsEnabled (st w)); now contradiction H.
  - unfold Ui.clickGenerate, handleGenerate_begin in *.
    destruct (Ui.generateButtonEnabled (st w));
      [|cbn in H; rewrite app_nil_r in H; now contradiction H].
    destruct (generateRefused (st w));
      [cbn in H; rewrite app_nil_r in H; now contradiction H|].
    repeat split. eexists. reflexivity.
  - destruct (nth_error (inflight w) i); now contradiction H.
  - destruct (Ui.resetEnabled (st w)); now contradiction H.
  - destruct (Ui.discardEnabled (st w)); now contradiction H.
  - destruct (Ui.connectScreen (st w)); now contradiction H.
Qed.

Lemma only_generate_sends_witness :
  sent (exec ClickGenerate MoreExamples.readyWorld) <> sent MoreExamples.readyWorld
  /\ Ui.generateButtonEnabled (st MoreExamples.readyWorld) = true
  /\ generateRefused (st MoreExamples.readyWorld) = false
  /\ exists req, sent (exec ClickGenerate MoreExamples.readyWorld)
                 = (sent MoreExamples.readyWorld ++ [req])%list.
Proof.
  assert (sent (exec ClickGenerate MoreExamples.readyWorld)
          <> sent MoreExamples.readyWorld) as H by discriminate.
  split; [exact H|].
  apply (only_generate_sends ClickGenerate MoreExamples.readyWorld H).
Defined.

End RunInvariants.

(** ** From the upload to the request *)
Module UploadFlows.
Import Js Types GeminiService App Session Runs.

Lemma includes_of_prefix (needle hay : string) :
  String.prefix needle hay = true -> includes needle hay = true.
Proof. intros H. destruct hay; simpl in *; now rewrite H. Qed.

Lemma prefix_append (needle rest : string) : String.prefix needle (needle ++ rest) = true.
Proof.
  induction needle as [|c needle IH]; simpl; [apply JsFacts.prefix_empty|].
  destruct (ascii_dec c c) as [_|ne]; [exact IH | now contradiction ne].
Qed.

Lemma includes_append_right (needle before hay : string) :
  includes needle hay = true -> includes needle (before ++ hay) = true.
Proof.
  intros H. induction before as [|c before IH]; [exact H|].
  change (String c before ++ hay) with (String c (before ++ hay)).
  simpl. rewrite IH. apply orb_true_r.
Qed.

(** The prompt names the ratio it is built for. *)
Lemma prompt_names_ratio (r : AspectRatio) (d : string) :
  includes (ratioValue r) (promptText r d) = true.
Proof.
  unfold promptText. apply includes_append_right, includes_of_prefix, prefix_append.
Qed.

Lemma encode_nonempty (bs : list byte) :
  bs <> [] -> is_empty (Base64.encode bs) = false.
Proof.
  destruct bs as [|a [|b [|c rest]]]; [intros H; now contradiction H| | |]; reflexivity.
Qed.

Lemma blobToBase64_readable (url mediaType : string) (bs : list byte) :
  includes "," mediaType = false ->
  blobToBase64 (Browser.mkFile url mediaType (Some bs)) = Resolved (Some (Base64.encode bs)).
Proof.
  intros Hm. unfold blobToBase64. cbn [Browser.file_bytes Browser.file_type].
  now rewrite (CodecCorrect.dataURL_split _ _ Hm).
Qed.

(** X16. Choosing a ratio never changes the generated image, the status,
    the images, the error message or the calls sent and in flight, whether
    or not a result is on the page.  When the ratio buttons are enabled
    the chosen ratio becomes the selected one, and the next accepted click
    on the generate button (directly, or after the result has been
    discarded) asks for exactly that ratio, in the request's configuration
    and by name in its prompt. *)
Theorem chosen_ratio_is_requested (w : World) (r : AspectRatio) :
  let w' := exec (ChooseRatio r) w in
  (generatedImage (st w') = generatedImage (st w)
   /\ status (st w') = status (st w)
   /\ originalImage (st w') = originalImage (st w)
   /\ originalImageBase64 (st w') = originalImageBase64 (st w)
   /\ errorMsg (st w') = errorMsg (st w)
   /\ sent w' = sent w
   /\ inflight w' = inflight w)
  /\ (Ui.ratioButtonsEnabled (st w) = true -> selectedRatio (st w') = r)
  /\ (Ui.ratioButtonsEnabled (st w) = true ->
      forall s' req,
        Ui.clickGenerate (st w') = (s', Some req)
        \/ Ui.clickGenerate (discardResult (st w')) = (s', Some req) ->
        req_aspectRatio req = r
        /\ includes (ratioValue r) (req_text req) = true).
Proof.
  cbn zeta. cbn [exec].
  destruct (Ui.ratioButtonsEnabled (st w)); cbn [st withState sent inflight].
  - split; [repeat split|]. split; [reflexivity|].
    intros _ s' req Hclick.
    assert (req = buildRequest (interpolate (originalImageBase64 (st w))) r
                               defaultPromptDescription) as ->.
    { unfold Ui.clickGenerate, handleGenerate_begin in Hclick.
      destruct Hclick as [H|H];
        match type of H with
        | (if ?b then _ else _) = _ => destruct b; [|discriminate H]
        end;
        match type of H with
        | (if ?b then _ else _) = _ => destruct b; [discriminate H|]
        end;
        injection H as _ <-; reflexivity. }
    split; [reflexivity|].
    cbn [req_text buildRequest]. apply prompt_names_ratio.
  - split; [repeat split|]. split; discriminate.
Qed.

Lemma chosen_ratio_is_requested_witness :
  Ui.ratioButtonsEnabled (st MoreExamples.resultWorld) = true
  /\ generatedImage (st MoreExamples.resultWorld) = Some "data:image/png;base64,AAAA"
  /\ generatedImage (st (exec (ChooseRatio STORY) MoreExamples.resultWorld))
     = generatedImage (st MoreExamples.resultWorld)
  /\ selectedRatio (st (exec (ChooseRatio STORY) MoreExamples.resultWorld)) = STORY
  /\ snd (Ui.clickGenerate
            (discardResult (st (exec (ChooseRatio STORY) MoreExamples.resultWorld))))
     = Some (buildRequest "/9j/4A==" STORY defaultPromptDescription)
  /\ req_aspectRatio (buildRequest "/9j/4A==" STORY defaultPromptDescription) = STORY
  /\ includes "9:16" (req_text (buildRequest "/9j/4A==" STORY defaultPromptDescription))
     = true.
Proof.
  split; [reflexivity|]. split; [reflexivity|].
  split; [exact (proj1 (proj1 (chosen_ratio_is_requested MoreExamples.resultWorld STORY)))|].
  split; [exact (proj1 (proj2 (chosen_ratio_is_requested MoreExamples.resultWorld STORY))
                   eq_refl)|].
  split; [reflexivity|].
  exact (proj2 (proj2 (chosen_ratio_is_requested MoreExamples.resultWorld STORY))
           eq_refl
           (setErrorMsg None (setStatus generating
              (discardResult (setSelectedRatio STORY MoreExamples.successState))))
           (buildRequest "/9j/4A==" STORY defaultPromptDescription)
           (or_intror eq_refl)).
Defined.

(** X17. From a fresh session with a key: picking a readable, non-empty
    file whose media type has no comma, letting the read finish and
    clicking Generate sends exactly one request; it carries the base64 text
    of the file's bytes (which decodes to those bytes), asks for the default
    ratio 3:4, and leaves the session [generating]. *)
Theorem upload_then_generate (url mediaType : string) (bs : list byte) :
  is_empty url = false ->
  includes "," mediaType = false ->
  bs <> [] ->
  let file := Browser.mkFile url mediaType (Some bs) in
  let w := run [PickFile file; ReadSettles 0; ClickGenerate]
               (initialWorld (Some (Resolved true))) in
  sent w = [buildRequest (Base64.encode bs) PORTRAIT defaultPromptDescription]
  /\ inflight w = sent w
  /\ Base64.decode (Base64.encode bs) = Some bs
  /\ status (st w) = generating
  /\ originalImage (st w) = Some url.
Proof.
  intros Hurl Hm Hbs. cbn zeta.
  cbn [run exec initialWorld checkApiKey st reads inflight sent].
  replace (Ui.fileInputEnabled (setApiKeySet true initialState)) with true by reflexivity.
  cbn [st reads inflight sent app nth_error remove_at firstn skipn].
  rewrite (blobToBase64_readable _ _ _ Hm).
  cbn [handleImageUpload_settle].
  rewrite (HandlerFlows.click_sends _ (Base64.encode bs)).
  - cbn [st inflight sent option_list app]. repeat split.
    apply Base64Facts.decode_encode.
  - unfold Ui.generateButtonEnabled, Ui.buttonDisabled, Ui.isGenerating. cbn.
    now rewrite Hurl.
  - reflexivity.
  - now apply encode_nonempty.
Qed.

Lemma upload_then_generate_witness :
  let w := run [PickFile Examples.photoA; ReadSettles 0; ClickGenerate]
               (initialWorld (Some (Resolved true))) in
  sent w = [buildRequest (Base64.encode [xff; xd8; xff; xe0]%byte)
                         PORTRAIT defaultPromptDescription]
  /\ inflight w = sent w
  /\ Base64.decode (Base64.encode [xff; xd8; xff; xe0]%byte)
     = Some [xff; xd8; xff; xe0]%byte
  /\ status (st w) = generating
  /\ originalImage (st w) = Some "blob:photo-a".
Proof.
  apply (upload_then_generate "blob:photo-a" "image/jpeg" [xff; xd8; xff; xe0]%byte);
    [reflexivity | reflexivity | discriminate].
Defined.

(** X18. A readable file without bytes is accepted silently: the upload
    stores the empty string as encoding and reports no error, and
    [handleGenerate] then returns at its guard without sending anything or
    storing a message. *)
Theorem empty_file_is_refused_silently (s : State) (url mediaType : string) :
  includes "," mediaType = false ->
  let s' := handleImageUpload (Browser.mkFile url mediaType (Some [])) s in
  originalImage s' = Some url
  /\ originalImageBase64 s' = Some EmptyString
  /\ errorMsg s' = None
  /\ handleGenerate_begin s' = (s', None).
Proof.
  intros Hm. unfold handleImageUpload.
  rewrite (blobToBase64_readable _ _ _ Hm). repeat split.
Qed.

Lemma empty_file_is_refused_silently_witness :
  let s' := handleImageUpload MoreExamples.emptyFile Examples.readyState in
  originalImage s' = Some "blob:empty"
  /\ originalImageBase64 s' = Some EmptyString
  /\ errorMsg s' = None
  /\ handleGenerate_begin s' = (s', None).
Proof.
  apply (empty_file_is_refused_silently Examples.readyState "blob:empty" "image/png").
  reflexivity.
Defined.

Lemma messageOrFallback_nonempty (err : Thrown) : is_empty (messageOrFallback err) = false.
Proof.
  unfold messageOrFallback. destruct (message err) as [m|]; [|reflexivity].
  destruct m; reflexivity.
Qed.

(** X19. Failure messages are rendered while the image is on the page: the
    message of a failed upload right after the upload, and the message
    of a failed generation (other than a credential failure) after a click
    on the enabled generate button; after [handleClear] no message is
    rendered, whatever the state holds. *)
Theorem failure_messages_are_shown (s : State) :
  (forall file,
      apiKeySet s = true ->
      is_empty (Browser.file_url file) = false ->
      Browser.file_bytes file = None ->
      Render.errorShown (handleImageUpload file s)
      = Some "Failed to process image. Please try another one.")
  /\ (forall err,
         Ui.generateButtonEnabled s = true ->
         isCredentialFailure err = false ->
         Render.errorShown
           (handleGenerate_settle (generateExpandedImage_settle (Rejected err))
                                  (fst (Ui.clickGenerate s)))
         = Some (messageOrFallback err))
  /\ Render.errorShown (handleClear s) = None.
Proof.
  split; [|split].
  - intros file Hkey Hurl Hbytes. unfold handleImageUpload, blobToBase64.
    rewrite Hbytes. unfold Render.errorShown. cbn. now rewrite Hkey, Hurl.
  - intros err Hon Hcred. unfold Ui.clickGenerate. rewrite Hon.
    unfold Ui.generateButtonEnabled in Hon.
    apply andb_prop in Hon as [Hon _]. apply andb_prop in Hon as [Hon Hgen].
    apply andb_prop in Hon as [Hkey Horig].
    cbn [generateExpandedImage_settle handleGenerate_settle].
    unfold handleGenerate_catch, handleGenerate_begin. rewrite Hcred.
    unfold Render.errorShown.
    destruct (generateRefused s); cbn; rewrite Hkey, Horig, Hgen;
      cbn; now rewrite messageOrFallback_nonempty.
  - unfold Render.errorShown. cbn. now rewrite andb_false_r.
Qed.

Lemma failure_messages_are_shown_witness :
  Render.errorShown (handleImageUpload Examples.photoB
                       (setApiKeySet true initialState))
  = Some "Failed to process image. Please try another one."
  /\ Render.errorShown
       (handleGenerate_settle
          (generateExpandedImage_settle (Rejected (Error "Quota exceeded")))
          (fst (Ui.clickGenerate Examples.readyState)))
     = Some (messageOrFallback (Error "Quota exceeded")).
Proof.
  split.
  - apply (proj1 (failure_messages_are_shown (setApiKeySet true initialState))
             Examples.photoB); reflexivity.
  - apply (proj1 (proj2 (failure_messages_are_shown Examples.readyState))
             (Error "Quota exceeded")); reflexivity.
Defined.

End UploadFlows.

(** ** The presentation components *)
Module PresentationCorrect.
Import Js Types GeminiService App Session.
Import RatioSelector.

(** X20. The selector offers each of the three ratios exactly once, so
    for every selected ratio exactly one button is highlighted, the one of
    that ratio; and after an enabled click on an option's button that
    option is the highlighted one. *)
Theorem selector_highlights_choice (w : World) (opt : RatioOption) :
  (forall r, map id (filter (isSelected r) options) = [r])
  /\ NoDup (map id options)
  /\ (In opt options ->
      Ui.ratioButtonsEnabled (st w) = true ->
      filter (isSelected (selectedRatio (st (exec (click opt) w)))) options = [opt]).
Proof.
  split; [|split].
  - intros r. destruct r; reflexivity.
  - cbn. repeat constructor; cbn; intuition discriminate.
  - intros Hin Hon. unfold click. cbn [exec]. rewrite Hon. cbn [st withState].
    cbn [selectedRatio setSelectedRatio].
    cbn in Hin. destruct Hin as [<-|[<-|[<-|[]]]]; reflexivity.
Qed.

Lemma selector_highlights_choice_witness :
  filter (isSelected
            (selectedRatio
               (st (exec (click (mkOption STORY "Story" "9:16" "Reels"))
                         MoreExamples.readyWorld))))
         options
  = [mkOption STORY "Story" "9:16" "Reels"].
Proof.
  apply (proj2 (proj2 (selector_highlights_choice MoreExamples.readyWorld
                         (mkOption STORY "Story" "9:16" "Reels")))).
  - right. right. left. reflexivity.
  - reflexivity.
Defined.

(** X21. For every ratio the preview frame's CSS [aspect-ratio] is the
    width and the height of the API value joined by a slash, and it
    contains no colon; the frame is capped at 260px exactly for the story
    ratio. *)
Theorem preview_frame_ratio (r : AspectRatio) :
  (exists width height,
      ratioValue r = width ++ ":" ++ height
      /\ ImageUploader.cssRatio r = width ++ "/" ++ height
      /\ includes ":" width = false /\ includes ":" height = false)
  /\ includes ":" (ImageUploader.cssRatio r) = false
  /\ (ImageUploader.maxWidth r = "260px" <-> r = STORY).
Proof.
  split; [|split].
  - destruct r;
      [exists "1", "1" | exists "3", "4" | exists "9", "16"]; repeat split.
  - destruct r; reflexivity.
  - destruct r; cbn; split; intros H; try reflexivity; discriminate H.
Qed.

End PresentationCorrect.
